(** * Load balancers of the managed-inference benchmark

    A shallow embedding of the two request routers of the repository,

    - [docker/managed/smart-lb/app.py]   (queue-depth aware, module [SmartLB])
    - [docker/baseline/simple-lb/app.py] (round robin, module [SimpleLB])

    together with the properties their specification states about them.
    Python values are modelled as they occur at run time: exceptions are an
    explicit result type, dictionaries are finite maps, floats are IEEE-754
    values ([spec_float]) compared with the IEEE comparison. *)

From Stdlib Require Import ZArith String Ascii List Lia.
From Stdlib Require Import Floats.SpecFloat.
From stdpp Require Import gmap strings list fin_maps.

Local Open Scope string_scope.
Local Open Scope Z_scope.

(** ** Python run-time values *)

Module Py.

(** Exception classes the two programs can meet. All of them derive from
    [Exception], so an [except Exception] clause catches every one. *)
Inductive exn_kind : Set :=
  | IndexError | ValueError | TypeError | AttributeError | StopIteration
  | OtherException.

Record exn : Set := mk_exn { exn_kind_of : exn_kind; exn_msg : string }.

(** [str(e)] *)
Definition str (e : exn) : string := exn_msg e.

Inductive result (A : Type) : Type :=
  | Ok (a : A)
  | Raise (e : exn).
Arguments Ok {A} a.
Arguments Raise {A} e.

#[global] Instance result_ret : MRet result := fun _ a => Ok a.
#[global] Instance result_bind : MBind result := fun _ _ f m =>
  match m with
  | Ok a => f a
  | Raise e => Raise e
  end.

Definition is_ok {A} (r : result A) : bool :=
  match r with Ok _ => true | Raise _ => false end.

(** [l[i]] for a non-negative literal index. *)
Definition index {A} (l : list A) (i : nat) : result A :=
  match l !! i with
  | Some x => Ok x
  | None => Raise (mk_exn IndexError "list index out of range")
  end.

(** [l[-1]] *)
Definition index_last {A} (l : list A) : result A :=
  match last l with
  | Some x => Ok x
  | None => Raise (mk_exn IndexError "list index out of range")
  end.

(** *** Floats *)

(** [float('inf')] *)
Definition inf : spec_float := S754_infinity false.
(** The integer literal [0]; it compares like the float [0.0]. *)
Definition zero : spec_float := S754_zero false.

(** [x < y] and [x <= y] on floats. *)
Definition flt (x y : spec_float) : bool := SFltb x y.
Definition fle (x y : spec_float) : bool := SFleb x y.

(** *** Decoded JSON documents *)

#[local] Set Warnings "-register-all".

(** An object is kept as the item list of the decoded [dict] (keys are
    distinct, [json.loads] keeps the last of duplicated keys). *)
Inductive json : Type :=
  | JNull
  | JBool (b : bool)
  | JInt (z : Z)
  | JFloat (f : spec_float)
  | JStr (s : string)
  | JArr (l : list json)
  | JObj (items : list (string * json)).

(** Truth value of a decoded document, as tested by [if v:]. *)
Definition truthy (v : json) : bool :=
  match v with
  | JNull => false
  | JBool b => b
  | JInt z => negb (z =? 0)
  | JFloat f => match f with S754_zero _ => false | _ => true end
  | JStr s => negb (String.eqb s "")
  | JArr l => match l with [] => false | _ => true end
  | JObj l => match l with [] => false | _ => true end
  end.

(** Lists and dicts cannot be hashed. *)
Definition unhashable (v : json) : option string :=
  match v with
  | JArr _ => Some "unhashable type: 'list'"
  | JObj _ => Some "unhashable type: 'dict'"
  | _ => None
  end.

(** Looking a decoded document [k] up in a dict [d] whose keys are strings:
    hashing comes first, and only a string can equal a key. *)
Definition dict_find {V} (d : gmap string V) (k : json) : result (option V) :=
  match unhashable k with
  | Some m => Raise (mk_exn TypeError m)
  | None =>
      match k with
      | JStr s => Ok (d !! s)
      | _ => Ok None
      end
  end.

(** [d.get(k, default)] *)
Definition dict_get {V} (d : gmap string V) (k : json) (default : V) : result V :=
  o ← dict_find d k; mret (from_option id default o).

(** [body.get(key)] and [body.get(key, default)] on a decoded request body:
    only an object has a [get] method. *)
Fixpoint assoc (key : string) (items : list (string * json)) : option json :=
  match items with
  | [] => None
  | (k, v) :: rest => if String.eqb k key then Some v else assoc key rest
  end.

(** [type(v).__name__] *)
Definition type_name (v : json) : string :=
  match v with
  | JNull => "NoneType"
  | JBool _ => "bool"
  | JInt _ => "int"
  | JFloat _ => "float"
  | JStr _ => "str"
  | JArr _ => "list"
  | JObj _ => "dict"
  end.

Definition body_get (body : json) (key : string) (default : json) : result json :=
  match body with
  | JObj items => Ok (from_option id default (assoc key items))
  | _ => Raise (mk_exn AttributeError
                  ("'" ++ type_name body ++ "' object has no attribute 'get'"))
  end.

(** What [json.dumps(..., allow_nan=False)] accepts: no NaN and no infinity
    anywhere in the document. *)
Fixpoint json_compliant (v : json) : bool :=
  match v with
  | JFloat S754_nan | JFloat (S754_infinity _) => false
  | JArr l => forallb json_compliant l
  | JObj items => forallb (fun kv => json_compliant (snd kv)) items
  | _ => true
  end.

(** *** Strings *)

(** [s.split(sep)] for a one-character separator: never an empty list. *)
Fixpoint split_on (sep : ascii) (s : string) : list string :=
  match s with
  | EmptyString => [EmptyString]
  | String c rest =>
      if Ascii.eqb c sep then EmptyString :: split_on sep rest
      else match split_on sep rest with
           | l :: ls => String c l :: ls
           | [] => [String c EmptyString]
           end
  end.

(** [key in s] *)
Fixpoint contains (key s : string) : bool :=
  String.prefix key s ||
  match s with
  | EmptyString => false
  | String _ rest => contains key rest
  end.

(** [s.startswith(p)] *)
Definition startswith (s p : string) : bool := String.prefix p s.

(** The characters [str.split()] treats as blanks, among the code points
    below 256. *)
Definition isspace (c : ascii) : bool :=
  let n := nat_of_ascii c in
  ((9 <=? n) && (n <=? 13) || (28 <=? n) && (n <=? 32) || (n =? 133) || (n =? 160))%nat.

(** [s.split()]: maximal runs of non-blank characters; [acc] is the run
    being read, last character first. *)
Fixpoint split_ws_from (acc : list ascii) (s : string) : list string :=
  let flush := match acc with
               | [] => []
               | _ => [string_of_list_ascii (rev acc)]
               end in
  match s with
  | EmptyString => flush
  | String c rest =>
      if isspace c then flush ++ split_ws_from [] rest
      else split_ws_from (c :: acc) rest
  end.

Definition split_ws (s : string) : list string := split_ws_from [] s.

End Py.

(** ** The HTTP objects both programs handle *)

Module Http.
Import Py.

(** An inbound request: [await request.json()], [request.url.path] and
    [request.headers]. *)
Record Request : Type := mk_request {
  req_json : result json;
  req_path : string;
  req_headers : list (string * string)
}.

(** The answer of a backend to [client.post]: status, declared content
    type, body bytes in arrival order, and the outcome of
    [response.json()]. *)
Record BackendResponse : Type := mk_backend_response {
  resp_status : Z;
  resp_content_type : option string;
  resp_chunks : list string;
  resp_json : result json
}.

(** What the handler hands back to the framework. [HTTPException] is the
    raised error response. *)
Inductive Response : Type :=
  | StreamingResponse (chunks : list string) (media_type : option string) (status : Z)
  | JSONResponse (content : json) (status : Z)
  | HTTPException (status : Z) (detail : string).

(** A request sent to a backend. *)
Record Post : Type := mk_post {
  post_url : string;
  post_json : json;
  post_headers : list (string * string)
}.

(** The backends, as a handler sees them. *)
Definition Backends : Type := Post → result BackendResponse.

(** [JSONResponse(content=..., status_code=...)]: the body is rendered
    when the object is built. *)
Definition json_response (content : json) (status : Z) : result Response :=
  if json_compliant content then Ok (JSONResponse content status)
  else Raise (mk_exn ValueError "Out of range float values are not JSON compliant").

(** What the handlers do with the answer of the backend. *)
Definition relay (body : json) (response : BackendResponse) : result Response :=
  stream ← body_get body "stream" (JBool false);
  if truthy stream then
    mret (StreamingResponse (resp_chunks response) (resp_content_type response)
                            (resp_status response))
  else
    content ← resp_json response;
    json_response content (resp_status response).

(** The request a handler sends to the backend [e]. *)
Definition outbound (request : Request) (body : json) (e : string) : Post :=
  mk_post (e ++ req_path request) body (req_headers request).

(** The [async with httpx.AsyncClient(...)] block shared by the two
    handlers: one POST, then the relay of its answer. The first component
    lists the requests sent. *)
Definition forward (backends : Backends) (request : Request) (body : json)
    (e : string) : list Post * result Response :=
  let sent := outbound request body e in
  ([sent], response ← backends sent; relay body response).

(** [except Exception as e: raise HTTPException(status_code=500, detail=str(e))] *)
Definition or_500 (r : result Response) : Response :=
  match r with
  | Ok response => response
  | Raise e => HTTPException 500 (str e)
  end.

(** The document served by [/v1/models]. *)
Record ModelEntry : Type := mk_model { id : string; object : string; replicas : Z }.
Record ModelList : Type := mk_models { list_object : string; data : list ModelEntry }.

End Http.

Import Py.

(** ** The queue-depth aware balancer: [docker/managed/smart-lb/app.py] *)

Module SmartLB.

(** One entry of [endpoint_metrics], the dict built by
    [fetch_endpoint_metrics]. *)
Record Metrics : Type := mk_metrics {
  endpoint : string;
  queue_depth : spec_float;
  timestamp : spec_float;
  healthy : bool
}.

(** [endpoint_metrics.get(endpoint, {}).get("queue_depth", float('inf'))] *)
Definition depth_of (endpoint_metrics : gmap string Metrics) (e : string) : spec_float :=
  match endpoint_metrics !! e with
  | Some metrics => queue_depth metrics
  | None => inf
  end.

(** *** [EndpointSelector] *)

Definition LLAMA_8B : string := "meta-llama/Llama-3.1-8B-Instruct".
Definition QWEN_7B : string := "Qwen/Qwen2.5-7B-Instruct".
Definition LLAMA_70B : string := "meta-llama/Llama-3.3-70B-Instruct".

(** The dict literal [model_endpoints]: its six subscripts are evaluated in
    order and the first one out of range raises. *)
Definition model_endpoints (endpoints : list string) : result (gmap string (list string)) :=
  e0 ← index endpoints 0; e1 ← index endpoints 1;
  e2 ← index endpoints 2; e3 ← index endpoints 3;
  e4 ← index endpoints 4; e5 ← index endpoints 5;
  mret (<[LLAMA_8B := [e0; e1]]> (<[QWEN_7B := [e2; e3]]> (<[LLAMA_70B := [e4; e5]]> ∅))).

(** One turn of the scanning loop; the state is
    [(min_queue_depth, best_endpoint)]. *)
Definition scan_step (endpoint_metrics : gmap string Metrics)
    (st : spec_float * string) (e : string) : spec_float * string :=
  let queue_depth := depth_of endpoint_metrics e in
  if flt queue_depth (fst st) then (queue_depth, e) else st.

(** The least-busy scan, written twice in the source (once over the
    replicas of a model, once over all endpoints). *)
Definition least_busy (endpoint_metrics : gmap string Metrics)
    (candidates : list string) : result string :=
  best_endpoint ← index candidates 0;
  mret (snd (fold_left (scan_step endpoint_metrics) candidates (inf, best_endpoint))).

(** The list the scan runs over. *)
Definition candidates_of (endpoints : list string) (model : json) : result (list string) :=
  if truthy model then
    d ← model_endpoints endpoints;
    dict_get d model (take 2 endpoints)
  else mret endpoints.

Definition get_best_endpoint (endpoints : list string)
    (endpoint_metrics : gmap string Metrics) (model : json) : result string :=
  candidates ← candidates_of endpoints model;
  least_busy endpoint_metrics candidates.

(** The argument a caller passes for an optional model name. *)
Definition model_arg (name : option string) : json :=
  match name with
  | Some s => JStr s
  | None => JNull
  end.

(** [n] calls one after the other; a call only reads the cache. *)
Fixpoint get_best_endpoint_calls (n : nat) (endpoints : list string)
    (endpoint_metrics : gmap string Metrics) (model : json) : list (result string) :=
  match n with
  | O => []
  | S n' => get_best_endpoint endpoints endpoint_metrics model
            :: get_best_endpoint_calls n' endpoints endpoint_metrics model
  end.

(** *** Configuration *)

(** [os.getenv("VLLM_ENDPOINTS", "").split(",")] *)
Definition load_endpoints (env : option string) : list string :=
  split_on "," (from_option id "" env).

(** *** [fetch_endpoint_metrics] *)

Record http_reply : Type := mk_reply { status_code : Z; text : string }.

Definition QUEUE_KEY : string := "vllm:num_requests_waiting".

Section Scrape.

(** [float(s)] on a token of the metrics text; [None] stands for the
    [ValueError] raised on a token that is not a float literal. *)
Variable py_float : string → option spec_float.

Definition float_of (s : string) : result spec_float :=
  match py_float s with
  | Some f => Ok f
  | None => Raise (mk_exn ValueError ("could not convert string to float: '" ++ s ++ "'"))
  end.

(** Body of the [for line in ...] loop, with its
    [except (ValueError, IndexError): pass]. *)
Definition parse_line (queue_depth : spec_float) (line : string) : result spec_float :=
  if contains QUEUE_KEY line && negb (startswith line "#") then
    match (tok ← index_last (split_ws line); float_of tok) with
    | Ok v => Ok v
    | Raise e =>
        match exn_kind_of e with
        | ValueError | IndexError => Ok queue_depth
        | _ => Raise e
        end
    end
  else Ok queue_depth.

Fixpoint scan_lines (lines : list string) (queue_depth : spec_float) : result spec_float :=
  match lines with
  | [] => Ok queue_depth
  | line :: rest => q ← parse_line queue_depth line; scan_lines rest q
  end.

(** The [try] block: [Ok None] is the fall-through of a status other
    than 200. *)
Definition scrape (e : string) (reply : result http_reply) (now : spec_float)
    : result (option Metrics) :=
  response ← reply;
  if status_code response =? 200 then
    q ← scan_lines (split_on "010" (text response)) zero;
    mret (Some (mk_metrics e q now true))
  else mret None.

(** The dict returned after the [try] statement. *)
Definition unreachable (e : string) (now : spec_float) : Metrics :=
  mk_metrics e inf now false.

Definition fetch_endpoint_metrics (e : string) (reply : result http_reply)
    (now : spec_float) : Metrics :=
  match scrape e reply now with
  | Ok (Some metrics) => metrics
  | Ok None | Raise _ => unreachable e now
  end.

(** *** [metrics_poller] *)

(** What task number [i] of one tick observes: the outcome of its GET and
    the clock. *)
Record observation : Type := mk_obs { obs_reply : result http_reply; obs_clock : spec_float }.

(** [asyncio.gather] over the tasks, results in task order. *)
Definition gather_metrics (VLLM_ENDPOINTS : list string) (net : nat → observation)
    : list Metrics :=
  imap (fun i e => fetch_endpoint_metrics e (obs_reply (net i)) (obs_clock (net i)))
       VLLM_ENDPOINTS.

(** [endpoint_metrics[metrics["endpoint"]] = metrics] for each result. *)
Definition store_metrics (endpoint_metrics : gmap string Metrics) (results : list Metrics)
    : gmap string Metrics :=
  fold_left (fun c metrics => <[endpoint metrics := metrics]> c) results endpoint_metrics.

(** One turn of the [while True] loop. *)
Definition poll_tick (VLLM_ENDPOINTS : list string) (net : nat → observation)
    (endpoint_metrics : gmap string Metrics) : gmap string Metrics :=
  store_metrics endpoint_metrics (gather_metrics VLLM_ENDPOINTS net).

(** The loop, run for as many turns as there are observed ticks.
    [fetch_endpoint_metrics] catches every exception itself, so [gather]
    has nothing to re-raise and the [except] clause of the loop is never
    entered. *)
Fixpoint metrics_poller (VLLM_ENDPOINTS : list string) (ticks : list (nat → observation))
    (endpoint_metrics : gmap string Metrics) : gmap string Metrics :=
  match ticks with
  | [] => endpoint_metrics
  | net :: rest =>
      metrics_poller VLLM_ENDPOINTS rest (poll_tick VLLM_ENDPOINTS net endpoint_metrics)
  end.

End Scrape.

(** The value a line of the metrics text contributes: [float] of its last
    token when the line names the key, is not a comment and that token is a
    float literal. *)
Definition line_reading (py_float : string → option spec_float) (line : string)
    : option spec_float :=
  if contains QUEUE_KEY line && negb (startswith line "#")
  then last (split_ws line) ≫= py_float
  else None.

(** The contributed values of a metrics text, in text order. *)
Definition depth_readings (py_float : string → option spec_float) (body : string)
    : list spec_float :=
  omap (line_reading py_float) (split_on "010" body).

(** *** [/health] *)

Record Health : Type := mk_health {
  status : string;
  endpoints : nat;
  healthy_endpoints : nat
}.

Definition health (VLLM_ENDPOINTS : list string) (endpoint_metrics : gmap string Metrics)
    : Health :=
  let healthy_count :=
    sum_list ((fun m : Metrics => if healthy m then 1%nat else 0%nat)
                <$> (map_to_list endpoint_metrics).*2) in
  mk_health (if (0 <? healthy_count)%nat then "healthy" else "unhealthy")
            (length VLLM_ENDPOINTS) healthy_count.

(** *** [/v1/models] *)

Definition list_models (VLLM_ENDPOINTS : list string)
    (endpoint_metrics : gmap string Metrics) : Http.ModelList :=
  let models :=
    [ Http.mk_model "meta-llama/Llama-3.1-8B-Instruct" "model" 2;
      Http.mk_model "Qwen/Qwen2.5-7B-Instruct" "model" 2;
      Http.mk_model "meta-llama/Llama-3.3-70B-Instruct" "model" 2 ] in
  Http.mk_models "list" models.

(** *** [proxy_request] *)

(** The statements before the [async with] block. *)
Definition route (VLLM_ENDPOINTS : list string) (endpoint_metrics : gmap string Metrics)
    (request : Http.Request) : result (json * string) :=
  body ← Http.req_json request;
  model ← body_get body "model" JNull;
  e ← get_best_endpoint VLLM_ENDPOINTS endpoint_metrics model;
  mret (body, e).

(** The [try] block: the requests sent and what the block returns or
    raises. *)
Definition attempt (VLLM_ENDPOINTS : list string)
    (endpoint_metrics : gmap string Metrics) (backends : Http.Backends)
    (request : Http.Request) : list Http.Post * result Http.Response :=
  match route VLLM_ENDPOINTS endpoint_metrics request with
  | Raise e => ([], Raise e)
  | Ok (body, e) => Http.forward backends request body e
  end.

Definition proxy_request (VLLM_ENDPOINTS : list string)
    (endpoint_metrics : gmap string Metrics) (backends : Http.Backends)
    (request : Http.Request) : list Http.Post * Http.Response :=
  let (sent, r) := attempt VLLM_ENDPOINTS endpoint_metrics backends request in
  (sent, Http.or_500 r).

End SmartLB.

(** ** The round-robin balancer: [docker/baseline/simple-lb/app.py] *)

Module SimpleLB.

(** [itertools.cycle] over a list: the saved items and the position of the
    item handed out next. *)
Record cycle : Type := mk_cycle { saved : list string; cursor : nat }.

Definition cycle_of (l : list string) : cycle := mk_cycle l 0.

(** [next(it)] *)
Definition next (it : cycle) : result (string * cycle) :=
  match saved it !! cursor it with
  | Some x => Ok (x, mk_cycle (saved it) (S (cursor it) mod length (saved it))%nat)
  | None => Raise (mk_exn StopIteration "")
  end.

(** [os.getenv("VLLM_ENDPOINTS", "").split(",")] *)
Definition load_endpoints (env : option string) : list string :=
  split_on "," (from_option id "" env).

Record RoundRobinSelector : Type := mk_selector {
  endpoints : list string;
  model_endpoints : gmap string (list string);
  model_iterators : gmap string cycle;
  global_iterator : cycle
}.

(** [RoundRobinSelector.__init__] *)
Definition init (endpoints : list string) : result RoundRobinSelector :=
  e0 ← index endpoints 0; e1 ← index endpoints 1;
  e2 ← index endpoints 2; e3 ← index endpoints 3;
  e4 ← index endpoints 4; e5 ← index endpoints 5;
  let model_endpoints : gmap string (list string) :=
    <["meta-llama/Llama-3.1-8B-Instruct" := [e0; e1]]>
      (<["Qwen/Qwen2.5-7B-Instruct" := [e2; e3]]>
         (<["meta-llama/Llama-3.3-70B-Instruct" := [e4; e5]]> ∅)) in
  mret (mk_selector endpoints model_endpoints (cycle_of <$> model_endpoints)
                    (cycle_of endpoints)).

(** [model and model in self.model_iterators], then the iterator found. *)
Definition model_iterator (self : RoundRobinSelector) (model : json)
    : result (option (string * cycle)) :=
  if truthy model then
    o ← dict_find (model_iterators self) model;
    mret (match model, o with
          | JStr name, Some it => Some (name, it)
          | _, _ => None
          end)
  else mret None.

Definition get_next_endpoint (self : RoundRobinSelector) (model : json)
    : result (string * RoundRobinSelector) :=
  found ← model_iterator self model;
  match found with
  | Some (name, it) =>
      '(e, it') ← next it;
      mret (e, mk_selector (endpoints self) (model_endpoints self)
                           (<[name := it']> (model_iterators self))
                           (global_iterator self))
  | None =>
      '(e, it') ← next (global_iterator self);
      mret (e, mk_selector (endpoints self) (model_endpoints self)
                           (model_iterators self) it')
  end.

(** A run of selection calls on the one selector of the process; a call
    that raises leaves the cursors where they were. *)
Fixpoint get_next_endpoint_calls (self : RoundRobinSelector) (models : list json)
    : list (result string) * RoundRobinSelector :=
  match models with
  | [] => ([], self)
  | model :: rest =>
      match get_next_endpoint self model with
      | Ok (e, self') =>
          let (rs, final) := get_next_endpoint_calls self' rest in (Ok e :: rs, final)
      | Raise x =>
          let (rs, final) := get_next_endpoint_calls self rest in (Raise x :: rs, final)
      end
  end.

(** Does the call name the model [name]? *)
Definition names (name : string) (model : json) : bool :=
  match model with
  | JStr s => String.eqb s name
  | _ => false
  end.

(** Number of calls of a run that name [name]. *)
Fixpoint calls_for (name : string) (models : list json) : nat :=
  match models with
  | [] => O
  | model :: rest =>
      if names name model then S (calls_for name rest) else calls_for name rest
  end.

(** The answers to the calls of a run that name [name], in call order. *)
Fixpoint answers_for (name : string) (models : list json) (answers : list (result string))
    : list (result string) :=
  match models, answers with
  | model :: ms, a :: rest =>
      if names name model then a :: answers_for name ms rest
      else answers_for name ms rest
  | _, _ => []
  end.

(** [rs[0], rs[1], ..., rs[k-1], rs[0], ...]: the first [n] terms of the
    sequence of period [k = len(rs)] that starts at position [start]. *)
Definition rotation (rs : list string) (start n : nat) : list (result string) :=
  (fun i => index rs ((start + i) mod length rs)%nat) <$> seq 0 n.

(** *** [/health] *)

Record Health : Type := mk_health { status : string; endpoints_total : nat }.

Definition health (VLLM_ENDPOINTS : list string) : Health :=
  mk_health "healthy" (length VLLM_ENDPOINTS).

(** *** [proxy_request] *)

Definition route (selector : RoundRobinSelector) (request : Http.Request)
    : result (json * string * RoundRobinSelector) :=
  body ← Http.req_json request;
  model ← body_get body "model" JNull;
  '(e, selector') ← get_next_endpoint selector model;
  mret (body, e, selector').

(** The [try] block: the requests sent, what the block returns or raises,
    and the selector as the call leaves it. *)
Definition attempt (selector : RoundRobinSelector) (backends : Http.Backends)
    (request : Http.Request)
    : list Http.Post * result Http.Response * RoundRobinSelector :=
  match route selector request with
  | Raise e => ([], Raise e, selector)
  | Ok (body, e, selector') =>
      let (sent, r) := Http.forward backends request body e in (sent, r, selector')
  end.

Definition proxy_request (selector : RoundRobinSelector) (backends : Http.Backends)
    (request : Http.Request) : list Http.Post * Http.Response * RoundRobinSelector :=
  let '(sent, r, selector') := attempt selector backends request in
  (sent, Http.or_500 r, selector').

(** *** [/v1/models] *)

Definition list_models (VLLM_ENDPOINTS : list string) (selector : RoundRobinSelector)
    : Http.ModelList :=
  let models :=
    [ Http.mk_model "meta-llama/Llama-3.1-8B-Instruct" "model" 2;
      Http.mk_model "Qwen/Qwen2.5-7B-Instruct" "model" 2;
      Http.mk_model "meta-llama/Llama-3.3-70B-Instruct" "model" 2 ] in
  Http.mk_models "list" models.

End SimpleLB.

(** ** Sample deployments, used in the examples below *)

Module Sample.
Import SmartLB.

Definition six : list string :=
  ["http://vllm-0:8000"; "http://vllm-1:8000"; "http://vllm-2:8000";
   "http://vllm-3:8000"; "http://vllm-4:8000"; "http://vllm-5:8000"].

(** The float [2.0] *)
Definition two : spec_float := S754_finite false 4503599627370496 (-51).
(** The float [5.0] *)
Definition five : spec_float := S754_finite false 5629499534213120 (-50).

Definition sample (e : string) (q : spec_float) : Metrics := mk_metrics e q zero true.

(** [float] on the tokens of the examples; every other token used there is
    not a float literal. *)
Definition py_float (tok : string) : option spec_float :=
  if String.eqb tok "0.0" then Some (S754_zero false)
  else if String.eqb tok "2.0" then Some two
  else if String.eqb tok "5.0" then Some five
  else None.


(** Two ticks over two backends: in [down] the scrape of the first one
    times out, in [up] both answer. *)
Definition answer : result http_reply :=
  Ok (mk_reply 200 "vllm:num_requests_waiting 2.0").

Definition down (i : nat) : observation :=
  match i with
  | O => mk_obs (Raise (mk_exn OtherException "timed out")) zero
  | _ => mk_obs answer zero
  end.

Definition up (i : nat) : observation := mk_obs answer zero.

(** The selector of the round-robin balancer started on [six]. *)
Definition selector : SimpleLB.RoundRobinSelector :=
  match SimpleLB.init six with
  | Ok s => s
  | Raise _ => SimpleLB.mk_selector [] ∅ ∅ (SimpleLB.cycle_of [])
  end.

End Sample.

(** ** Notions used by the further properties *)

Module Notions.

(** [sep.join(l)] for a one-character separator. *)
Fixpoint join (sep : ascii) (l : list string) : string :=
  match l with
  | [] => EmptyString
  | x :: rest =>
      match rest with
      | [] => x
      | _ => x ++ String sep (join sep rest)
      end
  end.

(** Some character of [s] is not a blank. *)
Definition has_nonblank (s : string) : bool :=
  existsb (fun c => negb (isspace c)) (list_ascii_of_string s).

(** Every entry of the cache is stored under the address it names. *)
Definition keyed (c : gmap string SmartLB.Metrics) : Prop :=
  ∀ k m, c !! k = Some m → SmartLB.endpoint m = k.

(** The keys of the registry of the round-robin selector. *)
Definition registered (name : string) : bool :=
  String.eqb name "meta-llama/Llama-3.1-8B-Instruct"
  || String.eqb name "Qwen/Qwen2.5-7B-Instruct"
  || String.eqb name "meta-llama/Llama-3.3-70B-Instruct".

(** The calls [get_next_endpoint] serves from the global iterator: no
    model, or a hashable model that is not a key of the registry. *)
Definition uses_global (model : json) : bool :=
  if truthy model then
    match model with
    | JStr s => negb (registered s)
    | JArr _ | JObj _ => false
    | _ => true
    end
  else true.

(** Number of calls of a run that satisfy [p], and the answers to them. *)
Fixpoint count_where (p : json → bool) (models : list json) : nat :=
  match models with
  | [] => O
  | model :: rest => if p model then S (count_where p rest) else count_where p rest
  end.

Fixpoint answers_where (p : json → bool) (models : list json)
    (answers : list (result string)) : list (result string) :=
  match models, answers with
  | model :: ms, a :: rest =>
      if p model then a :: answers_where p ms rest else answers_where p ms rest
  | _, _ => []
  end.

(** The shape every selector reached from [__init__] over [l] has: the
    iterators are those of the three registered models, each stands on an
    item of its list, the lists hold configured backends, and the global
    iterator runs over [l]. *)
Record started (l : list string) (self : SimpleLB.RoundRobinSelector) : Prop := mk_started {
  started_keys : ∀ s, is_Some (SimpleLB.model_iterators self !! s) ↔ registered s = true;
  started_models : ∀ s it, SimpleLB.model_iterators self !! s = Some it →
      (SimpleLB.cursor it < length (SimpleLB.saved it))%nat
      ∧ ∀ e, e ∈ SimpleLB.saved it → e ∈ l;
  started_global : SimpleLB.saved (SimpleLB.global_iterator self) = l
      ∧ (SimpleLB.cursor (SimpleLB.global_iterator self) < length l)%nat
}.

End Notions.

(** * Properties *)

(** ** The IEEE comparison *)

Section FloatOrder.

Lemma SFcompare_swap x y : SFcompare y x = CompOpp <$> SFcompare x y.
Proof.
  destruct x as [sx|sx| |sx mx ex], y as [sy|sy| |sy my ey]; simpl;
    try (destruct sx); try (destruct sy); simpl; try reflexivity.
  all: rewrite (Z.compare_antisym ex ey); destruct (ex ?= ey); simpl;
    try reflexivity; rewrite (Pos.compare_cont_antisym mx my Eq); reflexivity.
Qed.

Lemma flt_asym x y : flt x y = true → flt y x = false.
Proof.
  unfold flt, SFltb. rewrite (SFcompare_swap x y).
  destruct (SFcompare x y) as [[]|]; simpl; congruence.
Qed.

Lemma fle_not_flt x y : fle x y = true → flt y x = false.
Proof.
  unfold fle, flt, SFleb, SFltb. rewrite (SFcompare_swap x y).
  destruct (SFcompare x y) as [[]|]; simpl; congruence.
Qed.

Lemma flt_fle x y : flt x y = true → fle x y = true.
Proof.
  unfold fle, flt, SFleb, SFltb. destruct (SFcompare x y) as [[]|]; congruence.
Qed.

Lemma flt_inf x y : flt x y = true → flt x inf = true.
Proof.
  unfold flt, SFltb, inf.
  destruct x as [sx|sx| |sx mx ex], y as [sy|sy| |sy my ey]; simpl;
    try (destruct sx); try (destruct sy); simpl; congruence.
Qed.

Lemma flt_inf_r x : flt inf x = false.
Proof. unfold flt, SFltb, inf. destruct x as [s|[]| |s m e]; reflexivity. Qed.

(** Only [+inf] and NaN are not below [+inf]. *)
Lemma fle_above_inf x y : fle x y = true → flt x inf = false → flt y inf = false.
Proof.
  unfold fle, flt, SFleb, SFltb, inf.
  destruct x as [sx|sx| |sx mx ex], y as [sy|sy| |sy my ey]; simpl;
    try (destruct sx); try (destruct sy); simpl; congruence.
Qed.

End FloatOrder.

(** ** The least-busy scan *)

Section Scan.
Import SmartLB.

Variable endpoint_metrics : gmap string Metrics.

(** A run of candidates none of which is below the current minimum leaves
    the state alone. *)
Lemma scan_keeps (cs : list string) st :
  (∀ c, c ∈ cs → flt (depth_of endpoint_metrics c) (fst st) = false) →
  fold_left (scan_step endpoint_metrics) cs st = st.
Proof.
  revert st. induction cs as [|c cs IH]; intros st Hcs; [reflexivity|].
  simpl. unfold scan_step at 2. rewrite (Hcs c) by constructor.
  apply IH. intros c' Hc'. apply Hcs. now constructor.
Qed.

(** While every candidate met is above [q], and the minimum started above
    [q], the minimum stays above [q]. *)
Lemma scan_above (cs : list string) st q :
  flt q (fst st) = true →
  (∀ c, c ∈ cs → flt q (depth_of endpoint_metrics c) = true) →
  flt q (fst (fold_left (scan_step endpoint_metrics) cs st)) = true.
Proof.
  revert st. induction cs as [|c cs IH]; intros st Hst Hcs; [exact Hst|].
  simpl. apply IH.
  - unfold scan_step. destruct (flt (depth_of endpoint_metrics c) (fst st)); [|exact Hst].
    simpl. apply Hcs. constructor.
  - intros c' Hc'. apply Hcs. now constructor.
Qed.

(** The scan returns the first candidate that is not above any other. *)
Lemma least_busy_first_min (cs : list string) (k : nat) (r : string) :
  cs !! k = Some r →
  (∀ j r', cs !! j = Some r' → fle (depth_of endpoint_metrics r) (depth_of endpoint_metrics r') = true) →
  (∀ j r', cs !! j = Some r' → (j < k)%nat → flt (depth_of endpoint_metrics r) (depth_of endpoint_metrics r') = true) →
  least_busy endpoint_metrics cs = Ok r.
Proof.
  intros Hk Hle Hlt.
  destruct cs as [|c0 cs0] eqn:Ecs; [discriminate|].
  unfold least_busy, index. simpl. f_equal.
  change (snd (fold_left (scan_step endpoint_metrics) (c0 :: cs0) (inf, c0)) = r). rewrite <- Ecs.
  assert (Hsplit : cs = (take k cs ++ r :: drop (S k) cs)%list).
  { subst cs. symmetry. now apply take_drop_middle. }
  assert (Hpre : ∀ c, c ∈ take k cs → flt (depth_of endpoint_metrics r) (depth_of endpoint_metrics c) = true).
  { intros c Hc. apply list_elem_of_lookup in Hc as [j Hj].
    assert (j < k)%nat.
    { apply lookup_lt_Some in Hj. rewrite length_take in Hj. lia. }
    apply (Hlt j); [|assumption].
    rewrite lookup_take_lt in Hj by assumption. now subst cs. }
  assert (Hsuf : ∀ c, c ∈ drop (S k) cs → fle (depth_of endpoint_metrics r) (depth_of endpoint_metrics c) = true).
  { intros c Hc. apply list_elem_of_lookup in Hc as [j Hj].
    rewrite lookup_drop in Hj. apply (Hle (S k + j)%nat). now subst cs. }
  rewrite Hsplit, fold_left_app. simpl.
  destruct k as [|k'].
  - (* the first candidate itself *)
    assert (r = c0) by (subst cs; simpl in Hk; congruence). subst c0.
    rewrite take_0. simpl. unfold scan_step at 2. simpl.
    destruct (flt (depth_of endpoint_metrics r) inf) eqn:E.
    + rewrite scan_keeps; [reflexivity|]. simpl.
      intros c Hc. apply fle_not_flt. now apply Hsuf.
    + rewrite scan_keeps; [reflexivity|]. simpl.
      intros c Hc. apply (fle_above_inf (depth_of endpoint_metrics r)); [now apply Hsuf | exact E].
  - assert (Hinf : flt (depth_of endpoint_metrics r) inf = true).
    { apply (flt_inf _ (depth_of endpoint_metrics c0)). apply (Hlt 0%nat); [now subst cs | lia]. }
    pose proof (scan_above (take (S k') cs) (inf, c0) (depth_of endpoint_metrics r) Hinf Hpre) as Hab.
    unfold scan_step at 2. rewrite Hab.
    rewrite scan_keeps; [reflexivity|]. simpl.
    intros c Hc. apply fle_not_flt. now apply Hsuf.
Qed.

(** The scan returns the candidate strictly below every other one. *)
Lemma least_busy_strict_min (cs : list string) (k : nat) (r : string) :
  cs !! k = Some r →
  (∀ j r', cs !! j = Some r' → j ≠ k → flt (depth_of endpoint_metrics r) (depth_of endpoint_metrics r') = true) →
  least_busy endpoint_metrics cs = Ok r.
Proof.
  intros Hk Hlt.
  destruct (decide (length cs = 1%nat)) as [Hone|Hmany].
  - destruct cs as [|c0 [|c1 cs]]; try discriminate.
    destruct k; [|discriminate]. simpl in Hk. injection Hk as ->.
    unfold least_busy, index. simpl. f_equal.
    unfold scan_step. simpl. now destruct (flt (depth_of endpoint_metrics r) inf).
  - assert (Hother : ∃ j r', cs !! j = Some r' ∧ j ≠ k).
    { destruct cs as [|c0 [|c1 cs]]; [discriminate | contradiction |].
      destruct k; [exists 1%nat, c1 | exists 0%nat, c0]; split; auto. }
    destruct Hother as (j0 & r0 & Hj0 & Hne0).
    assert (Hrefl : fle (depth_of endpoint_metrics r) (depth_of endpoint_metrics r) = true).
    { pose proof (Hlt j0 r0 Hj0 Hne0) as H0.
      unfold fle, flt, SFleb, SFltb in *.
      destruct (depth_of endpoint_metrics r) as [s|s| |s m e]; simpl in *; try discriminate;
        try reflexivity; try (destruct s; reflexivity).
      destruct s; rewrite Z.compare_refl, Pos.compare_cont_refl; reflexivity. }
    apply (least_busy_first_min cs k r Hk).
    + intros j r' Hj. destruct (decide (j = k)) as [->|Hne].
      * rewrite Hk in Hj. injection Hj as <-. exact Hrefl.
      * apply flt_fle. now apply (Hlt j).
    + intros j r' Hj Hjk. apply (Hlt j); [assumption | lia].
Qed.

(** With nothing below [+inf] the scan keeps its initial choice. *)
Lemma least_busy_all_inf (cs : list string) (c0 : string) :
  cs !! 0%nat = Some c0 →
  (∀ c, c ∈ cs → depth_of endpoint_metrics c = inf) →
  least_busy endpoint_metrics cs = Ok c0.
Proof.
  intros H0 Hall. unfold least_busy, index. rewrite H0. simpl. f_equal.
  rewrite scan_keeps; [reflexivity|]. simpl.
  intros c Hc. rewrite (Hall c Hc). apply flt_inf_r.
Qed.

(** The scan, when it returns, returns one of its candidates. *)
Lemma least_busy_elem (cs : list string) (r : string) :
  least_busy endpoint_metrics cs = Ok r → r ∈ cs.
Proof.
  unfold least_busy, index. destruct cs as [|c0 cs0] eqn:E; [discriminate|].
  rewrite <- E. assert (Hc0 : c0 ∈ cs) by (subst cs; constructor).
  replace (cs !! 0%nat) with (Some c0) by now subst cs.
  simpl. intros [= <-].
  assert (G : ∀ l st, snd st ∈ cs → (∀ c, c ∈ l → c ∈ cs) →
                      snd (fold_left (scan_step endpoint_metrics) l st) ∈ cs).
  { induction l as [|c l IH]; intros st Hst Hl; [exact Hst|].
    simpl. apply IH.
    - unfold scan_step. destruct (flt _ _); [|exact Hst]. simpl. apply Hl. constructor.
    - intros c' Hc'. apply Hl. now constructor. }
  apply G; auto.
Qed.

End Scan.

(** ** The adaptive selector *)

Section Selector.
Import SmartLB.

(** The registry literal can be built exactly when there are six endpoints,
    and then holds three models of two replicas each. *)
Lemma model_endpoints_Ok (endpoints : list string) d :
  model_endpoints endpoints = Ok d →
  ∃ e0 e1 e2 e3 e4 e5 rest,
    endpoints = e0 :: e1 :: e2 :: e3 :: e4 :: e5 :: rest ∧
    d = <[LLAMA_8B := [e0; e1]]> (<[QWEN_7B := [e2; e3]]> (<[LLAMA_70B := [e4; e5]]> ∅)).
Proof.
  destruct endpoints as [|e0 [|e1 [|e2 [|e3 [|e4 [|e5 rest]]]]]]; try discriminate.
  intros [= <-]. now exists e0, e1, e2, e3, e4, e5, rest.
Qed.

Lemma model_endpoints_six (endpoints : list string) :
  (6 ≤ length endpoints)%nat → ∃ d, model_endpoints endpoints = Ok d.
Proof.
  destruct endpoints as [|e0 [|e1 [|e2 [|e3 [|e4 [|e5 rest]]]]]]; simpl; try lia.
  intros _. eexists. reflexivity.
Qed.

Lemma registered_name (endpoints : list string) d name rs :
  model_endpoints endpoints = Ok d → d !! name = Some rs →
  name ≠ "" ∧ length rs = 2%nat ∧ ∀ r, r ∈ rs → r ∈ endpoints.
Proof.
  intros Hd Hl. apply model_endpoints_Ok in Hd as (e0&e1&e2&e3&e4&e5&rest&->&->).
  rewrite !lookup_insert_Some, lookup_empty in Hl.
  destruct Hl as [[<- <-]|[_ [[<- <-]|[_ [[<- <-]|[_ ?]]]]]]; try discriminate.
  all: split; [discriminate|]; split; [reflexivity|].
  all: intros r Hr; apply list_elem_of_In in Hr; apply list_elem_of_In.
  all: simpl in *; tauto.
Qed.

Lemma candidates_registered (endpoints : list string) d name rs :
  model_endpoints endpoints = Ok d → d !! name = Some rs →
  candidates_of endpoints (JStr name) = Ok rs.
Proof.
  intros Hd Hl. destruct (registered_name _ _ _ _ Hd Hl) as [Hne _].
  unfold candidates_of. simpl.
  destruct (String.eqb_spec name ""); [contradiction|]. simpl.
  rewrite Hd. simpl. unfold dict_get. simpl. now rewrite Hl.
Qed.

Lemma candidates_unregistered (endpoints : list string) d name :
  model_endpoints endpoints = Ok d → d !! name = None → name ≠ "" →
  candidates_of endpoints (JStr name) = Ok (take 2 endpoints).
Proof.
  intros Hd Hl Hne. unfold candidates_of. simpl.
  destruct (String.eqb_spec name ""); [contradiction|]. simpl.
  rewrite Hd. simpl. unfold dict_get. simpl. now rewrite Hl.
Qed.

Lemma calls_replicate n (endpoints : list string) (c : gmap string Metrics) model :
  get_best_endpoint_calls n endpoints c model
  = replicate n (get_best_endpoint endpoints c model).
Proof. induction n as [|n IH]; simpl; [reflexivity | now rewrite IH]. Qed.

Lemma least_busy_total (c : gmap string Metrics) (cs : list string) :
  cs ≠ [] → ∃ e, least_busy c cs = Ok e ∧ e ∈ cs.
Proof.
  intros Hne. destruct cs as [|c0 cs0] eqn:E; [contradiction|]. rewrite <- E.
  assert (H : ∃ e, least_busy c cs = Ok e).
  { subst cs. unfold least_busy, index. simpl. eauto. }
  destruct H as [e He]. exists e. split; [exact He|]. now apply (least_busy_elem c).
Qed.

(** C2 (as stated) fails: with six backends of which only the last has
    reported a queue, an unregistered model name is scanned over the first
    two backends only, and the answer differs from the scan of the full
    list. *)
Lemma C2_unregistered_is_not_global :
  let name := "mistral-7b" in
  let c : gmap string Metrics :=
    {[ "http://vllm-5:8000" := Sample.sample "http://vllm-5:8000" zero ]} in
  (∃ d, model_endpoints Sample.six = Ok d ∧ d !! name = None)
  ∧ candidates_of Sample.six (JStr name) ≠ Ok Sample.six
  ∧ least_busy c Sample.six = Ok "http://vllm-5:8000"
  ∧ get_best_endpoint Sample.six c (JStr name) = Ok "http://vllm-0:8000".
Proof.
  cbv zeta. split; [|split; [|split]].
  - eexists. split; [reflexivity|]. vm_compute. reflexivity.
  - vm_compute. discriminate.
  - vm_compute. reflexivity.
  - vm_compute. reflexivity.
Qed.

(** C2 (amended): for a non-empty model name that is not a key of the
    registry, the candidates are the first two entries of the backend list
    and the selection is the least-busy scan over these two; the full list
    is the candidate set when no model is given ([None] or the empty
    string). *)
Theorem C2_unregistered_candidates (endpoints : list string)
    (c : gmap string Metrics) d name :
  model_endpoints endpoints = Ok d → d !! name = None → name ≠ "" →
  candidates_of endpoints (JStr name) = Ok (take 2 endpoints)
  ∧ get_best_endpoint endpoints c (JStr name) = least_busy c (take 2 endpoints)
  ∧ candidates_of endpoints JNull = Ok endpoints
  ∧ candidates_of endpoints (JStr "") = Ok endpoints.
Proof.
  intros Hd Hl Hne.
  pose proof (candidates_unregistered endpoints d name Hd Hl Hne) as Hc.
  split; [exact Hc|]. split; [|split; reflexivity].
  unfold get_best_endpoint. now rewrite Hc.
Qed.

Lemma C2_unregistered_candidates_witness :
  candidates_of Sample.six (JStr "mistral-7b") = Ok (take 2 Sample.six)
  ∧ get_best_endpoint Sample.six ∅ (JStr "mistral-7b") = least_busy ∅ (take 2 Sample.six)
  ∧ candidates_of Sample.six JNull = Ok Sample.six
  ∧ candidates_of Sample.six (JStr "") = Ok Sample.six.
Proof.
  eapply (C2_unregistered_candidates Sample.six ∅ _ "mistral-7b").
  - reflexivity.
  - vm_compute. reflexivity.
  - discriminate.
Defined.

(** C3 (as stated) fails: with a single configured backend, a call that
    names a model raises [IndexError] while the registry literal is built. *)
Lemma C3_single_backend_raises :
  load_endpoints (Some "http://vllm-0:8000") = ["http://vllm-0:8000"]
  ∧ get_best_endpoint (load_endpoints (Some "http://vllm-0:8000")) ∅
      (model_arg (Some LLAMA_8B))
    = Raise (mk_exn IndexError "list index out of range").
Proof. split; vm_compute; reflexivity. Qed.

(** C3 (amended): with at least six configured backends, for every optional
    model name and every cache state the selector returns one address, a
    member of the backend list, and does not raise; when no model is given
    ([None] or the empty string) a non-empty backend list is enough. *)
Theorem C3_selector_returns_backend (endpoints : list string)
    (c : gmap string Metrics) (name : option string) :
  (6 ≤ length endpoints)%nat ∨ (endpoints ≠ [] ∧ truthy (model_arg name) = false) →
  ∃ e, get_best_endpoint endpoints c (model_arg name) = Ok e ∧ e ∈ endpoints.
Proof.
  intros H. unfold get_best_endpoint.
  assert (Hcs : ∃ cs, candidates_of endpoints (model_arg name) = Ok cs
                      ∧ cs ≠ [] ∧ ∀ r, r ∈ cs → r ∈ endpoints).
  { unfold candidates_of. destruct (truthy (model_arg name)) eqn:Et.
    - destruct H as [H6|[_ ?]]; [|discriminate].
      destruct (model_endpoints_six endpoints H6) as [d Hd]. rewrite Hd. simpl.
      destruct name as [s|]; [|discriminate]. simpl. unfold dict_get. simpl.
      destruct (d !! s) as [rs|] eqn:El; simpl.
      + destruct (registered_name _ _ _ _ Hd El) as (_ & Hlen & Hin).
        exists rs. split; [reflexivity|]. split; [|exact Hin].
        intros ->. discriminate.
      + exists (take 2 endpoints). split; [reflexivity|]. split.
        * destruct endpoints as [|? [|]]; simpl in *; try lia; discriminate.
        * intros r Hr. apply list_elem_of_lookup in Hr as [i Hi].
          apply lookup_take_Some in Hi as [Hi _].
          apply list_elem_of_lookup. eauto.
    - exists endpoints. split; [reflexivity|]. split; [|auto].
      destruct H as [H6|[Hne _]]; [|exact Hne].
      intros ->. simpl in H6. lia. }
  destruct Hcs as (cs & -> & Hne & Hin). simpl.
  destruct (least_busy_total c cs Hne) as (e & He & Hecs).
  exists e. split; [exact He | auto].
Qed.

Lemma C3_selector_returns_backend_witness :
  ∃ e, get_best_endpoint Sample.six ∅ (model_arg (Some "mistral-7b")) = Ok e
       ∧ e ∈ Sample.six.
Proof.
  apply (C3_selector_returns_backend Sample.six ∅ (Some "mistral-7b")).
  left. simpl. lia.
Defined.

(** C4: for a registered model, a replica whose queue depth is strictly
    below that of every other replica is returned, and so is the earliest
    replica among those sharing the minimum; repeated calls give the same
    answer. *)
Theorem C4_least_busy_replica (endpoints : list string)
    (c : gmap string Metrics) d name rs (k : nat) (r : string) :
  model_endpoints endpoints = Ok d → d !! name = Some rs →
  rs !! k = Some r →
  (∀ j r', rs !! j = Some r' → j ≠ k →
           flt (depth_of c r) (depth_of c r') = true)
  ∨ ((∀ j r', rs !! j = Some r' → fle (depth_of c r) (depth_of c r') = true)
     ∧ (∀ j r', rs !! j = Some r' → (j < k)%nat →
                flt (depth_of c r) (depth_of c r') = true)) →
  get_best_endpoint endpoints c (JStr name) = Ok r
  ∧ ∀ n, get_best_endpoint_calls n endpoints c (JStr name) = replicate n (Ok r).
Proof.
  intros Hd Hl Hk Hmin.
  assert (Hsel : get_best_endpoint endpoints c (JStr name) = Ok r).
  { unfold get_best_endpoint. rewrite (candidates_registered _ _ _ _ Hd Hl). simpl.
    destruct Hmin as [Hstrict|[Hle Hlt]].
    - now apply (least_busy_strict_min c rs k r).
    - now apply (least_busy_first_min c rs k r). }
  split; [exact Hsel|]. intros n. now rewrite calls_replicate, Hsel.
Qed.

Lemma C4_least_busy_replica_witness :
  let c : gmap string Metrics :=
    <[ "http://vllm-0:8000" := Sample.sample "http://vllm-0:8000" Sample.five ]>
      {[ "http://vllm-1:8000" := Sample.sample "http://vllm-1:8000" Sample.two ]} in
  get_best_endpoint Sample.six c (JStr LLAMA_8B) = Ok "http://vllm-1:8000"
  ∧ ∀ n, get_best_endpoint_calls n Sample.six c (JStr LLAMA_8B)
         = replicate n (Ok "http://vllm-1:8000").
Proof.
  cbv zeta.
  eapply (C4_least_busy_replica Sample.six _ _ LLAMA_8B
            ["http://vllm-0:8000"; "http://vllm-1:8000"] 1).
  - reflexivity.
  - vm_compute. reflexivity.
  - reflexivity.
  - left. intros [|[|j]] r' Hj Hne; simpl in Hj; try discriminate.
    + injection Hj as <-. vm_compute. reflexivity.
    + contradiction.
Defined.

(** C5: when every candidate of a call is unknown to the cache or has queue
    depth [+inf], the first candidate is returned, on every repeated call. *)
Theorem C5_all_unknown_returns_first (endpoints : list string)
    (c : gmap string Metrics) (model : json) cs (c0 : string) :
  candidates_of endpoints model = Ok cs → cs !! 0%nat = Some c0 →
  (∀ e, e ∈ cs → c !! e = None ∨ ∃ m, c !! e = Some m ∧ queue_depth m = inf) →
  get_best_endpoint endpoints c model = Ok c0
  ∧ ∀ n, get_best_endpoint_calls n endpoints c model = replicate n (Ok c0).
Proof.
  intros Hcs H0 Hall.
  assert (Hsel : get_best_endpoint endpoints c model = Ok c0).
  { unfold get_best_endpoint. rewrite Hcs. simpl.
    apply least_busy_all_inf; [exact H0|].
    intros e He. unfold depth_of.
    destruct (Hall e He) as [->|(m & -> & Hm)]; [reflexivity | exact Hm]. }
  split; [exact Hsel|]. intros n. now rewrite calls_replicate, Hsel.
Qed.

(** Two replicas at depths 5 and 2: the second is chosen; once its scrape
    has failed and the first reports depth 2, the first is. *)
Example least_busy_follows_cache :
  let a := "http://vllm-0:8000" in
  let b := "http://vllm-1:8000" in
  get_best_endpoint Sample.six
    (<[a := Sample.sample a Sample.five]> {[ b := Sample.sample b Sample.two ]})
    (JStr LLAMA_8B) = Ok b
  ∧ get_best_endpoint Sample.six
      (<[a := Sample.sample a Sample.two]> {[ b := unreachable b zero ]})
      (JStr LLAMA_8B) = Ok a.
Proof. cbv zeta. split; vm_compute; reflexivity. Qed.

Lemma C5_all_unknown_returns_first_witness :
  get_best_endpoint Sample.six ∅ (JStr QWEN_7B) = Ok "http://vllm-2:8000"
  ∧ ∀ n, get_best_endpoint_calls n Sample.six ∅ (JStr QWEN_7B)
         = replicate n (Ok "http://vllm-2:8000").
Proof.
  apply (C5_all_unknown_returns_first Sample.six ∅ (JStr QWEN_7B)
           ["http://vllm-2:8000"; "http://vllm-3:8000"]).
  - vm_compute. reflexivity.
  - reflexivity.
  - intros e _. left. reflexivity.
Defined.

End Selector.

(** ** The telemetry poller *)

Section Poller.
Import SmartLB.

Variable py_float : string → option spec_float.

(** One turn of the line loop never raises: it stores the value the line
    contributes, or keeps the value it had. *)
Lemma parse_line_reading (q : spec_float) (line : string) :
  parse_line py_float q line = Ok (default q (line_reading py_float line)).
Proof.
  unfold parse_line, line_reading.
  destruct (contains QUEUE_KEY line && negb (startswith line "#")); [|reflexivity].
  unfold index_last. destruct (last (split_ws line)) as [tok|]; simpl; [|reflexivity].
  unfold float_of. now destruct (py_float tok).
Qed.

Lemma default_last_cons {A} (q v : A) (l : list A) :
  default v (last l) = default q (last (v :: l)).
Proof.
  destruct l as [|a l]; [reflexivity|].
  rewrite last_cons_cons. destruct (last (a :: l)) eqn:E; [reflexivity|].
  apply last_None in E. discriminate.
Qed.

Lemma scan_lines_readings (lines : list string) (q : spec_float) :
  scan_lines py_float lines q
  = Ok (default q (last (omap (line_reading py_float) lines))).
Proof.
  revert q. induction lines as [|line rest IH]; intros q; [reflexivity|].
  simpl. rewrite parse_line_reading. simpl. rewrite IH.
  destruct (line_reading py_float line) as [v|]; simpl; [|reflexivity].
  f_equal. apply default_last_cons.
Qed.

Lemma fetch_endpoint (e : string) reply now :
  endpoint (fetch_endpoint_metrics py_float e reply now) = e.
Proof.
  unfold fetch_endpoint_metrics, scrape.
  destruct reply as [[st body]|x]; simpl; [|reflexivity].
  destruct (st =? 200); simpl; [|reflexivity].
  rewrite scan_lines_readings. reflexivity.
Qed.

(** The entry of [k] after the results are stored: the last result for
    [k], or the old entry when there is none. *)
Lemma store_metrics_lookup (c : gmap string Metrics) (results : list Metrics) (k : string) :
  store_metrics c results !! k
  = match last (filter (fun m => endpoint m = k) results) with
    | Some m => Some m
    | None => c !! k
    end.
Proof.
  revert c. induction results as [|m rest IH]; intros c; [reflexivity|].
  unfold store_metrics in *. simpl. rewrite IH.
  rewrite filter_cons. destruct (decide (endpoint m = k)) as [Heq|Hne].
  - destruct (filter _ rest) as [|m' l] eqn:E.
    + simpl. subst k. apply lookup_insert_eq.
    + rewrite last_cons_cons. destruct (last (m' :: l)) eqn:E'; [reflexivity|].
      apply last_None in E'. discriminate.
  - destruct (last (filter _ rest)); [reflexivity|]. now apply lookup_insert_ne.
Qed.

Lemma gather_metrics_cons (e : string) (l : list string) (net : nat → observation) :
  gather_metrics py_float (e :: l) net
  = fetch_endpoint_metrics py_float e (obs_reply (net O)) (obs_clock (net O))
    :: gather_metrics py_float l (net ∘ S).
Proof. reflexivity. Qed.

(** Results for [k] depend only on the observations of the tasks that
    scrape [k]. *)
Lemma gather_metrics_frame (l : list string) (net net' : nat → observation) (b k : string) :
  k ≠ b →
  (∀ i e, l !! i = Some e → e ≠ b → net i = net' i) →
  filter (fun m => endpoint m = k) (gather_metrics py_float l net)
  = filter (fun m => endpoint m = k) (gather_metrics py_float l net').
Proof.
  intros Hkb. revert net net'. induction l as [|e l IH]; intros net net' Hag; [reflexivity|].
  rewrite !gather_metrics_cons, !filter_cons, !fetch_endpoint.
  rewrite (IH (net ∘ S) (net' ∘ S)) by (intros i e' Hi Hne; apply (Hag (S i) e' Hi Hne)).
  destruct (decide (e = k)) as [->|Hne]; [|reflexivity].
  now rewrite (Hag O k eq_refl Hkb).
Qed.

Lemma gather_metrics_absent (l : list string) (net : nat → observation) (k : string) :
  k ∉ l → filter (fun m => endpoint m = k) (gather_metrics py_float l net) = [].
Proof.
  revert net. induction l as [|e l IH]; intros net Hk; [reflexivity|].
  rewrite gather_metrics_cons, filter_cons, fetch_endpoint.
  apply not_elem_of_cons in Hk as [Hne Hk].
  destruct (decide (e = k)); [congruence|]. now apply IH.
Qed.

Lemma gather_metrics_last (l : list string) (net : nat → observation) (k : string) (i : nat) :
  l !! i = Some k → (∀ j, (i < j)%nat → l !! j ≠ Some k) →
  last (filter (fun m => endpoint m = k) (gather_metrics py_float l net))
  = Some (fetch_endpoint_metrics py_float k (obs_reply (net i)) (obs_clock (net i))).
Proof.
  revert net i. induction l as [|e l IH]; intros net i Hi Hlast; [discriminate|].
  rewrite gather_metrics_cons, filter_cons, fetch_endpoint.
  destruct i as [|i].
  - simpl in Hi. injection Hi as ->.
    destruct (decide (k = k)); [|congruence].
    rewrite gather_metrics_absent; [reflexivity|].
    intros Hin. apply list_elem_of_lookup in Hin as [j Hj].
    apply (Hlast (S j)); [lia | exact Hj].
  - simpl in Hi.
    assert (IH' := IH (net ∘ S) i Hi
                     (fun j Hj => Hlast (S j) ltac:(lia))).
    simpl in IH'.
    destruct (decide (e = k)); [|exact IH'].
    destruct (filter _ (gather_metrics py_float l (net ∘ S))); [discriminate|exact IH'].
Qed.

Lemma metrics_poller_snoc (l : list string) ticks (net : nat → observation)
    (c : gmap string Metrics) :
  metrics_poller py_float l (ticks ++ [net])%list c
  = poll_tick py_float l net (metrics_poller py_float l ticks c).
Proof.
  revert c. induction ticks as [|t ticks IH]; intros c; [reflexivity|].
  simpl. apply IH.
Qed.

(** C1 (amended): a scrape answered with status 200 always yields a healthy
    entry; its queue depth is the value of the last line that names the key,
    is not a comment and ends in a float literal, and 0 when the text has
    no such line. The entry with queue depth [+inf] and [healthy = false]
    is the one of a raised error or of a status other than 200. *)
Theorem C1_reply_200_is_healthy (e : string) (st : Z) (body : string)
    (x : exn) (now : spec_float) :
  fetch_endpoint_metrics py_float e (Ok (mk_reply st body)) now
  = (if st =? 200
     then mk_metrics e (default zero (last (depth_readings py_float body))) now true
     else mk_metrics e inf now false)
  ∧ fetch_endpoint_metrics py_float e (Raise x) now = mk_metrics e inf now false.
Proof.
  split; [|reflexivity].
  unfold fetch_endpoint_metrics, scrape. simpl.
  destruct (st =? 200); [|reflexivity]. simpl.
  now rewrite scan_lines_readings.
Qed.

(** C7: within one tick, the entry of a backend [b'] does not depend on
    what the scrape of another backend [b] yields (a failure in
    particular): it is the result of the last task that scrapes [b'], or
    the old entry when [b'] is not configured. The tick after any run of
    ticks is executed whatever these produced. *)
Theorem C7_scrape_failure_is_local (VLLM_ENDPOINTS : list string)
    (c : gmap string Metrics) (net net' : nat → observation) (b b' : string) :
  b' ≠ b →
  (∀ i e, VLLM_ENDPOINTS !! i = Some e → e ≠ b → net i = net' i) →
  poll_tick py_float VLLM_ENDPOINTS net c !! b'
  = poll_tick py_float VLLM_ENDPOINTS net' c !! b'
  ∧ (∀ i, VLLM_ENDPOINTS !! i = Some b' →
          (∀ j, (i < j)%nat → VLLM_ENDPOINTS !! j ≠ Some b') →
          poll_tick py_float VLLM_ENDPOINTS net c !! b'
          = Some (fetch_endpoint_metrics py_float b'
                    (obs_reply (net i)) (obs_clock (net i))))
  ∧ (b' ∉ VLLM_ENDPOINTS → poll_tick py_float VLLM_ENDPOINTS net c !! b' = c !! b')
  ∧ (∀ ticks, metrics_poller py_float VLLM_ENDPOINTS (ticks ++ [net])%list c
              = poll_tick py_float VLLM_ENDPOINTS net
                  (metrics_poller py_float VLLM_ENDPOINTS ticks c)).
Proof.
  intros Hne Hag. unfold poll_tick. repeat split.
  - rewrite !store_metrics_lookup.
    now rewrite (gather_metrics_frame VLLM_ENDPOINTS net net' b b' Hne Hag).
  - intros i Hi Hlast. rewrite store_metrics_lookup.
    now rewrite (gather_metrics_last VLLM_ENDPOINTS net b' i Hi Hlast).
  - intros Habs. rewrite store_metrics_lookup.
    now rewrite (gather_metrics_absent VLLM_ENDPOINTS net b' Habs).
  - intros ticks. apply metrics_poller_snoc.
Qed.

End Poller.

Section PollerExamples.
Import SmartLB.

(** C1 (as stated) fails: a 200 reply whose text has no line with the key,
    or whose line with the key ends in a token that is not a number, yields
    a healthy entry of queue depth 0, not the entry of a failed scrape. *)
Lemma C1_malformed_reply_is_healthy :
  let e := "http://vllm-0:8000" in
  let no_key := mk_reply 200 "vllm:num_requests_running 2.0" in
  let bad_token := mk_reply 200 "vllm:num_requests_waiting abc" in
  contains QUEUE_KEY (text no_key) = false
  ∧ Sample.py_float "abc" = None
  ∧ fetch_endpoint_metrics Sample.py_float e (Ok no_key) zero = mk_metrics e zero zero true
  ∧ fetch_endpoint_metrics Sample.py_float e (Ok bad_token) zero = mk_metrics e zero zero true
  ∧ mk_metrics e zero zero true ≠ unreachable e zero.
Proof. cbv zeta. repeat split; try (vm_compute; reflexivity). discriminate. Qed.

Lemma C7_scrape_failure_is_local_witness :
  let l := ["http://vllm-0:8000"; "http://vllm-1:8000"] in
  let b' := "http://vllm-1:8000" in
  poll_tick Sample.py_float l Sample.down ∅ !! b'
  = poll_tick Sample.py_float l Sample.up ∅ !! b'
  ∧ (∀ i, l !! i = Some b' → (∀ j, (i < j)%nat → l !! j ≠ Some b') →
          poll_tick Sample.py_float l Sample.down ∅ !! b'
          = Some (fetch_endpoint_metrics Sample.py_float b'
                    (obs_reply (Sample.down i)) (obs_clock (Sample.down i))))
  ∧ (b' ∉ l → poll_tick Sample.py_float l Sample.down ∅ !! b' = (∅ : gmap string Metrics) !! b')
  ∧ (∀ ticks, metrics_poller Sample.py_float l (ticks ++ [Sample.down])%list ∅
              = poll_tick Sample.py_float l Sample.down
                  (metrics_poller Sample.py_float l ticks ∅)).
Proof.
  cbv zeta.
  apply (C7_scrape_failure_is_local Sample.py_float
           ["http://vllm-0:8000"; "http://vllm-1:8000"] ∅ Sample.down Sample.up
           "http://vllm-0:8000" "http://vllm-1:8000").
  - discriminate.
  - intros [|[|i]] e Hi Hne; simpl in Hi.
    + injection Hi as <-. contradiction.
    + reflexivity.
    + discriminate.
Defined.

End PollerExamples.

(** ** The status handlers *)

Section Handlers.

Lemma healthy_count_pos (l : list SmartLB.Metrics) :
  (0 < sum_list ((fun m => if SmartLB.healthy m then 1 else 0) <$> l))%nat
  ↔ ∃ m, m ∈ l ∧ SmartLB.healthy m = true.
Proof.
  induction l as [|m l IH].
  - simpl. split; [lia|]. intros (m & Hm & _). now apply elem_of_nil in Hm.
  - rewrite fmap_cons.
    change (sum_list (?x :: ?r)) with (x + sum_list r)%nat.
    split.
    + intros H. destruct (SmartLB.healthy m) eqn:E.
      * exists m. split; [constructor | exact E].
      * apply IH in H as (m' & Hm' & Hh).
        exists m'. split; [now constructor | exact Hh].
    + intros (m' & Hm' & Hh). apply elem_of_cons in Hm' as [->|Hm'].
      * rewrite Hh. lia.
      * pose proof (proj2 IH (ex_intro _ m' (conj Hm' Hh))). lia.
Qed.

Lemma healthy_count_cache (c : gmap string SmartLB.Metrics) :
  (0 < sum_list ((fun m => if SmartLB.healthy m then 1 else 0)
                   <$> (map_to_list c).*2))%nat
  ↔ ∃ e m, c !! e = Some m ∧ SmartLB.healthy m = true.
Proof.
  rewrite healthy_count_pos. split.
  - intros (m & Hm & Hh). apply list_elem_of_fmap in Hm as ([e m'] & -> & Hin).
    apply elem_of_map_to_list in Hin. now exists e, m'.
  - intros (e & m & Hl & Hh). exists m. split; [|exact Hh].
    apply list_elem_of_fmap. exists (e, m). split; [reflexivity|].
    now apply elem_of_map_to_list.
Qed.

(** C9: the models listing of both programs is one fixed document of three
    entries with two replicas each, whatever the configured endpoints, the
    cache and the selector are. *)
Theorem C9_list_models_constant (env env' : option string)
    (c : gmap string SmartLB.Metrics) (selector : SimpleLB.RoundRobinSelector) :
  SmartLB.list_models (SmartLB.load_endpoints env) c
  = Http.mk_models "list"
      [ Http.mk_model "meta-llama/Llama-3.1-8B-Instruct" "model" 2;
        Http.mk_model "Qwen/Qwen2.5-7B-Instruct" "model" 2;
        Http.mk_model "meta-llama/Llama-3.3-70B-Instruct" "model" 2 ]
  ∧ SimpleLB.list_models (SimpleLB.load_endpoints env') selector
    = SmartLB.list_models (SmartLB.load_endpoints env) c
  ∧ length (Http.data (SmartLB.list_models (SmartLB.load_endpoints env) c)) = 3%nat
  ∧ Forall (fun m => Http.replicas m = 2)
      (Http.data (SmartLB.list_models (SmartLB.load_endpoints env) c)).
Proof.
  repeat split. unfold SmartLB.list_models. simpl.
  repeat constructor.
Qed.

(** C10: the health call of the adaptive balancer says "healthy" exactly
    when some cache entry has [healthy = true]; on the empty cache it says
    "unhealthy" with no healthy endpoint. *)
Theorem C10_health_status (VLLM_ENDPOINTS : list string)
    (c : gmap string SmartLB.Metrics) :
  (SmartLB.status (SmartLB.health VLLM_ENDPOINTS c) = "healthy"
   ↔ ∃ e m, c !! e = Some m ∧ SmartLB.healthy m = true)
  ∧ (SmartLB.status (SmartLB.health VLLM_ENDPOINTS c) = "unhealthy"
     ↔ ¬ ∃ e m, c !! e = Some m ∧ SmartLB.healthy m = true)
  ∧ SmartLB.health VLLM_ENDPOINTS ∅
    = SmartLB.mk_health "unhealthy" (length VLLM_ENDPOINTS) 0.
Proof.
  split; [|split].
  3: { unfold SmartLB.health. now rewrite map_to_list_empty. }
  all: pose proof (healthy_count_cache c) as Hcount.
  all: unfold SmartLB.health; simpl.
  all: destruct (Nat.ltb_spec 0 (sum_list
         ((fun m => if SmartLB.healthy m then 1%nat else 0%nat)
            <$> (map_to_list c).*2))) as [Hpos|Hzero].
  - split; [intros _; exact (proj1 Hcount Hpos) | reflexivity].
  - split; [discriminate|]. intros H. apply (proj2 Hcount) in H. lia.
  - split; [discriminate|]. intros H. exfalso. exact (H (proj1 Hcount Hpos)).
  - split; [|reflexivity]. intros _ H. apply (proj2 Hcount) in H. lia.
Qed.

End Handlers.

(** ** The round-robin selector *)

Section RoundRobin.
Import SimpleLB.

Lemma init_Ok (l : list string) sel :
  init l = Ok sel →
  ∃ e0 e1 e2 e3 e4 e5 rest (d : gmap string (list string)),
    l = e0 :: e1 :: e2 :: e3 :: e4 :: e5 :: rest
    ∧ d = <["meta-llama/Llama-3.1-8B-Instruct" := [e0; e1]]>
            (<["Qwen/Qwen2.5-7B-Instruct" := [e2; e3]]>
               (<["meta-llama/Llama-3.3-70B-Instruct" := [e4; e5]]> ∅))
    ∧ sel = mk_selector l d (cycle_of <$> d) (cycle_of l).
Proof.
  destruct l as [|e0 [|e1 [|e2 [|e3 [|e4 [|e5 rest]]]]]]; try discriminate.
  intros [= <-]. exists e0, e1, e2, e3, e4, e5, rest. eexists.
  split; [reflexivity|]. split; reflexivity.
Qed.

Lemma init_registered (l : list string) sel name rs :
  init l = Ok sel → model_endpoints sel !! name = Some rs →
  name ≠ "" ∧ length rs = 2%nat
  ∧ model_iterators sel !! name = Some (mk_cycle rs 0).
Proof.
  intros Hi Hl. apply init_Ok in Hi as (e0&e1&e2&e3&e4&e5&rest&d&->&->&->).
  simpl in *. rewrite lookup_fmap, Hl. simpl.
  rewrite !lookup_insert_Some, lookup_empty in Hl.
  destruct Hl as [[<- <-]|[_ [[<- <-]|[_ [[<- <-]|[_ ?]]]]]]; try discriminate.
  all: split; [discriminate|]; split; reflexivity.
Qed.

Lemma rotation_S (rs : list string) (t n : nat) :
  rotation rs t (S n) = index rs (t mod length rs)%nat :: rotation rs (S t) n.
Proof.
  unfold rotation. simpl. rewrite Nat.add_0_r. f_equal.
  rewrite <- fmap_S_seq, <- list_fmap_compose.
  apply list_fmap_ext. intros _ i _. simpl.
  now replace (t + S i)%nat with (S (t + i)) by lia.
Qed.

(** [next] on a cursor inside the list hands out the item there and moves
    one step round. *)
Lemma next_cursor (rs : list string) (t : nat) :
  rs ≠ [] →
  ∃ r, index rs (t mod length rs)%nat = Ok r
       ∧ next (mk_cycle rs (t mod length rs)%nat)
         = Ok (r, mk_cycle rs (S t mod length rs)%nat).
Proof.
  intros Hne.
  assert (Hlen : length rs ≠ 0%nat) by (destruct rs; [contradiction | discriminate]).
  assert (Hlt : (t mod length rs < length rs)%nat) by now apply Nat.mod_upper_bound.
  destruct (lookup_lt_is_Some_2 rs _ Hlt) as [r Hr].
  exists r. unfold index, next. simpl. rewrite Hr. split; [reflexivity|].
  do 3 f_equal. replace (S (t mod length rs)) with (t mod length rs + 1)%nat by lia.
  rewrite Nat.Div0.add_mod_idemp_l. f_equal. lia.
Qed.

(** A call that names [name] advances the cursor of [name] and answers
    with the replica the cursor was on. *)
Lemma call_named (self : RoundRobinSelector) (name : string) (rs : list string) (t : nat) :
  name ≠ "" → rs ≠ [] →
  model_iterators self !! name = Some (mk_cycle rs (t mod length rs)%nat) →
  ∃ r self',
    index rs (t mod length rs)%nat = Ok r
    ∧ get_next_endpoint self (JStr name) = Ok (r, self')
    ∧ model_iterators self' !! name = Some (mk_cycle rs (S t mod length rs)%nat).
Proof.
  intros Hname Hrs Hit.
  destruct (next_cursor rs t Hrs) as (r & Hr & Hnext).
  exists r. eexists. split; [exact Hr|].
  unfold get_next_endpoint, model_iterator. simpl.
  destruct (String.eqb_spec name ""); [contradiction|]. simpl.
  unfold dict_find. simpl. rewrite Hit. simpl. rewrite Hnext. simpl.
  split; [reflexivity|]. simpl. apply lookup_insert_eq.
Qed.

(** A call that does not name [name] leaves the cursor of [name] alone. *)
Lemma call_other (self self' : RoundRobinSelector) (name : string) (model : json) (e : string) :
  names name model = false →
  get_next_endpoint self model = Ok (e, self') →
  model_iterators self' !! name = model_iterators self !! name.
Proof.
  intros Hn. unfold get_next_endpoint, model_iterator.
  destruct (truthy model); simpl.
  - unfold dict_find. destruct (unhashable model); simpl; [discriminate|].
    destruct model as [| | | |s| |]; simpl;
      try (destruct (next (global_iterator self)) as [[? ?]|]; simpl;
           [intros [= _ <-]; reflexivity | discriminate]).
    destruct (model_iterators self !! s) as [it|]; simpl.
    + destruct (next it) as [[? ?]|]; simpl; [|discriminate].
      intros [= _ <-]. simpl. apply lookup_insert_ne.
      simpl in Hn. intros ->. now rewrite String.eqb_refl in Hn.
    + destruct (next (global_iterator self)) as [[? ?]|]; simpl;
        [intros [= _ <-]; reflexivity | discriminate].
  - destruct (next (global_iterator self)) as [[? ?]|]; simpl;
      [intros [= _ <-]; reflexivity | discriminate].
Qed.

(** The answers to the calls that name [name] follow the rotation of its
    replicas, from wherever its cursor stands, whatever the other calls
    are. *)
Lemma run_rotation (name : string) (rs : list string) (models : list json) :
  name ≠ "" → rs ≠ [] →
  ∀ (self : RoundRobinSelector) (t : nat),
    model_iterators self !! name = Some (mk_cycle rs (t mod length rs)%nat) →
    answers_for name models (fst (get_next_endpoint_calls self models))
    = rotation rs t (calls_for name models)
    ∧ model_iterators (snd (get_next_endpoint_calls self models)) !! name
      = Some (mk_cycle rs ((t + calls_for name models) mod length rs)%nat).
Proof.
  intros Hname Hrs. induction models as [|model rest IH]; intros self t Hit.
  - simpl. rewrite Nat.add_0_r. split; [reflexivity | exact Hit].
  - simpl. destruct (names name model) eqn:Hn.
    + assert (model = JStr name) as ->.
      { destruct model; try discriminate. simpl in Hn.
        apply String.eqb_eq in Hn. now subst. }
      destruct (call_named self name rs t Hname Hrs Hit) as (r & self' & Hr & Hcall & Hit').
      rewrite Hcall. destruct (IH self' (S t) Hit') as [IHa IHc].
      destruct (get_next_endpoint_calls self' rest) as [answers final].
      simpl in *. rewrite rotation_S, Hr, IHa. split; [reflexivity|].
      rewrite IHc. do 3 f_equal. lia.
    + destruct (get_next_endpoint self model) as [[e self']|x] eqn:Hcall.
      * assert (Hit' : model_iterators self' !! name
                       = Some (mk_cycle rs (t mod length rs)%nat))
          by (rewrite (call_other _ _ _ _ _ Hn Hcall); exact Hit).
        destruct (IH self' t Hit') as [IHa IHc].
        destruct (get_next_endpoint_calls self' rest) as [answers final].
        simpl in *. rewrite ?Hn. now split.
      * destruct (IH self t Hit) as [IHa IHc].
        destruct (get_next_endpoint_calls self rest) as [answers final].
        simpl in *. rewrite ?Hn. now split.
Qed.

Lemma length_calls (self : RoundRobinSelector) (models : list json) :
  length (fst (get_next_endpoint_calls self models)) = length models.
Proof.
  revert self. induction models as [|model rest IH]; intros self; [reflexivity|].
  simpl. destruct (get_next_endpoint self model) as [[e self']|x].
  - specialize (IH self'). destruct (get_next_endpoint_calls self' rest). simpl in *. now rewrite IH.
  - specialize (IH self). destruct (get_next_endpoint_calls self rest). simpl in *. now rewrite IH.
Qed.

Lemma calls_app (self : RoundRobinSelector) (pre post : list json) :
  get_next_endpoint_calls self (pre ++ post)%list
  = let (a, mid) := get_next_endpoint_calls self pre in
    let (b, final) := get_next_endpoint_calls mid post in
    ((a ++ b)%list, final).
Proof.
  revert self. induction pre as [|model rest IH]; intros self.
  - simpl. now destruct (get_next_endpoint_calls self post).
  - simpl. destruct (get_next_endpoint self model) as [[e self']|x].
    + rewrite IH. destruct (get_next_endpoint_calls self' rest) as [a mid].
      now destruct (get_next_endpoint_calls mid post).
    + rewrite IH. destruct (get_next_endpoint_calls self rest) as [a mid].
      now destruct (get_next_endpoint_calls mid post).
Qed.

Lemma answers_for_all (name : string) (n : nat) (answers : list (result string)) :
  length answers = n →
  answers_for name (replicate n (JStr name)) answers = answers.
Proof.
  revert answers. induction n as [|n IH]; intros [|a answers] Hlen; try discriminate.
  - reflexivity.
  - simpl. rewrite String.eqb_refl. f_equal. apply IH. simpl in Hlen. lia.
Qed.

Lemma calls_for_all (name : string) (n : nat) :
  calls_for name (replicate n (JStr name)) = n.
Proof. induction n as [|n IH]; simpl; [reflexivity|]. now rewrite String.eqb_refl, IH. Qed.

Lemma rotation_lookup (rs : list string) (t n i : nat) :
  (i < n)%nat →
  rotation rs t n !! i = Some (index rs ((t + i) mod length rs)%nat).
Proof.
  intros Hi. unfold rotation. rewrite list_lookup_fmap.
  now rewrite (lookup_seq_lt 0 n i Hi).
Qed.

(** C6: from the start of the process on, the answers to the calls that
    name a registered model are its replicas in registry order, round and
    round (the [i]-th such answer is replica [i mod 2]), whatever calls for
    other models or for no model come in between; each such call moves the
    cursor of the model by one and no other call moves it. *)
Theorem C6_round_robin_periodic (l : list string) (sel : RoundRobinSelector)
    (name : string) (rs : list string) :
  init l = Ok sel → model_endpoints sel !! name = Some rs →
  length rs = 2%nat
  ∧ (∀ models,
       answers_for name models (fst (get_next_endpoint_calls sel models))
       = rotation rs 0 (calls_for name models)
       ∧ cursor <$> model_iterators (snd (get_next_endpoint_calls sel models)) !! name
         = Some (calls_for name models mod 2)%nat)
  ∧ (∀ pre n,
       drop (length pre)
            (fst (get_next_endpoint_calls sel (pre ++ replicate n (JStr name))%list))
       = rotation rs (calls_for name pre) n)
  ∧ (∀ t n i, (i < n)%nat →
       rotation rs t n !! i = Some (index rs ((t + i) mod 2)%nat)
       ∧ is_ok (index rs ((t + i) mod 2)%nat) = true).
Proof.
  intros Hinit Hreg.
  destruct (init_registered l sel name rs Hinit Hreg) as (Hname & Hlen & Hit).
  assert (Hrs : rs ≠ []) by (intros ->; discriminate).
  assert (Hit0 : model_iterators sel !! name = Some (mk_cycle rs (0 mod length rs)%nat))
    by (rewrite Hit, Hlen; reflexivity).
  split; [exact Hlen|]. split; [|split].
  - intros models.
    destruct (run_rotation name rs models Hname Hrs sel 0%nat Hit0) as [Ha Hc].
    split; [exact Ha|]. rewrite Hc. simpl. now rewrite Hlen.
  - intros pre n. rewrite calls_app.
    destruct (run_rotation name rs pre Hname Hrs sel 0%nat Hit0) as [_ Hmid].
    pose proof (length_calls sel pre) as Hlpre.
    destruct (get_next_endpoint_calls sel pre) as [a mid]. simpl in Hmid, Hlpre.
    destruct (run_rotation name rs (replicate n (JStr name)) Hname Hrs mid
                (calls_for name pre) Hmid) as [Hb _].
    pose proof (length_calls mid (replicate n (JStr name))) as Hlpost.
    destruct (get_next_endpoint_calls mid (replicate n (JStr name))) as [b final].
    simpl in *. rewrite length_replicate in Hlpost.
    rewrite answers_for_all, calls_for_all in Hb by exact Hlpost.
    rewrite <- Hlpre, drop_app_length. exact Hb.
  - intros t n i Hi. rewrite rotation_lookup, Hlen by exact Hi.
    split; [reflexivity|].
    assert (Hlt : ((t + i) mod 2 < length rs)%nat)
      by (rewrite Hlen; apply Nat.mod_upper_bound; discriminate).
    unfold index. destruct (lookup_lt_is_Some_2 rs _ Hlt) as [r ->]. reflexivity.
Qed.

End RoundRobin.

Section RoundRobinExamples.
Import SimpleLB.

Lemma C6_round_robin_periodic_witness :
  let name := "Qwen/Qwen2.5-7B-Instruct" in
  let rs := ["http://vllm-2:8000"; "http://vllm-3:8000"] in
  length rs = 2%nat
  ∧ (∀ models,
       answers_for name models (fst (get_next_endpoint_calls Sample.selector models))
       = rotation rs 0 (calls_for name models)
       ∧ cursor <$> model_iterators
                      (snd (get_next_endpoint_calls Sample.selector models)) !! name
         = Some (calls_for name models mod 2)%nat)
  ∧ (∀ pre n,
       drop (length pre)
            (fst (get_next_endpoint_calls Sample.selector
                    (pre ++ replicate n (JStr name))%list))
       = rotation rs (calls_for name pre) n)
  ∧ (∀ t n i, (i < n)%nat →
       rotation rs t n !! i = Some (index rs ((t + i) mod 2)%nat)
       ∧ is_ok (index rs ((t + i) mod 2)%nat) = true).
Proof.
  cbv zeta.
  apply (C6_round_robin_periodic Sample.six Sample.selector
           "Qwen/Qwen2.5-7B-Instruct" ["http://vllm-2:8000"; "http://vllm-3:8000"]).
  - reflexivity.
  - vm_compute. reflexivity.
Defined.

(** Five calls for one model, with a call for another model and a call
    without model in between. *)
Example round_robin_run :
  fst (get_next_endpoint_calls Sample.selector
         [JStr "Qwen/Qwen2.5-7B-Instruct"; JNull; JStr "Qwen/Qwen2.5-7B-Instruct";
          JStr "meta-llama/Llama-3.1-8B-Instruct"; JStr "Qwen/Qwen2.5-7B-Instruct"])
  = [Ok "http://vllm-2:8000"; Ok "http://vllm-0:8000"; Ok "http://vllm-3:8000";
     Ok "http://vllm-0:8000"; Ok "http://vllm-2:8000"].
Proof. vm_compute. reflexivity. Qed.

End RoundRobinExamples.

(** ** The request proxy *)

Section Proxy.
Import Http.

Lemma smart_attempt_sent (l : list string) (c : gmap string SmartLB.Metrics)
    (backends : Backends) (request : Request) :
  (length (fst (SmartLB.attempt l c backends request)) ≤ 1)%nat.
Proof.
  unfold SmartLB.attempt.
  destruct (SmartLB.route l c request) as [[body e]|x]; simpl; lia.
Qed.

Lemma simple_attempt_sent (selector : SimpleLB.RoundRobinSelector)
    (backends : Backends) (request : Request) :
  (length (fst (fst (SimpleLB.attempt selector backends request))) ≤ 1)%nat.
Proof.
  unfold SimpleLB.attempt.
  destruct (SimpleLB.route selector request) as [[[body e] selector']|x]; simpl; lia.
Qed.

(** C8: in both balancers, an exception raised while the body is parsed,
    while a backend is selected, or while the backend is talked to (the
    POST itself or the reading of its answer) ends the call with one
    [HTTPException] of status 500 whose detail is [str] of the exception;
    a call sends at most one request to a backend, and none when the
    failure comes before the POST. *)
Theorem C8_proxy_failure_is_500 (l : list string) (c : gmap string SmartLB.Metrics)
    (selector : SimpleLB.RoundRobinSelector) (backends : Backends) (request : Request) :
  let smart := SmartLB.proxy_request l c backends request in
  let simple := SimpleLB.proxy_request selector backends request in
  (length (fst smart) ≤ 1)%nat
  ∧ (length (fst (fst simple)) ≤ 1)%nat
  ∧ (∀ x, snd (SmartLB.attempt l c backends request) = Raise x →
          snd smart = HTTPException 500 (str x))
  ∧ (∀ x, snd (fst (SimpleLB.attempt selector backends request)) = Raise x →
          snd (fst simple) = HTTPException 500 (str x))
  ∧ (∀ x, req_json request = Raise x →
          smart = ([], HTTPException 500 (str x))
          ∧ simple = ([], HTTPException 500 (str x), selector))
  ∧ (∀ body x, req_json request = Ok body → body_get body "model" JNull = Raise x →
          smart = ([], HTTPException 500 (str x))
          ∧ simple = ([], HTTPException 500 (str x), selector))
  ∧ (∀ body model x,
          req_json request = Ok body → body_get body "model" JNull = Ok model →
          SmartLB.get_best_endpoint l c model = Raise x →
          smart = ([], HTTPException 500 (str x)))
  ∧ (∀ body model x,
          req_json request = Ok body → body_get body "model" JNull = Ok model →
          SimpleLB.get_next_endpoint selector model = Raise x →
          simple = ([], HTTPException 500 (str x), selector))
  ∧ (∀ body e x,
          SmartLB.route l c request = Ok (body, e) →
          backends (outbound request body e) = Raise x →
          smart = ([outbound request body e], HTTPException 500 (str x)))
  ∧ (∀ body e selector' x,
          SimpleLB.route selector request = Ok (body, e, selector') →
          backends (outbound request body e) = Raise x →
          simple = ([outbound request body e], HTTPException 500 (str x), selector'))
  ∧ (∀ body e response x,
          SmartLB.route l c request = Ok (body, e) →
          backends (outbound request body e) = Ok response →
          relay body response = Raise x →
          smart = ([outbound request body e], HTTPException 500 (str x)))
  ∧ (∀ body e selector' response x,
          SimpleLB.route selector request = Ok (body, e, selector') →
          backends (outbound request body e) = Ok response →
          relay body response = Raise x →
          simple = ([outbound request body e], HTTPException 500 (str x), selector')).
Proof.
  cbv zeta. unfold SmartLB.proxy_request, SimpleLB.proxy_request.
  pose proof (smart_attempt_sent l c backends request) as Hsmart.
  pose proof (simple_attempt_sent selector backends request) as Hsimple.
  repeat apply conj.
  - now destruct (SmartLB.attempt l c backends request).
  - now destruct (SimpleLB.attempt selector backends request) as [[? ?] ?].
  - intros x. destruct (SmartLB.attempt l c backends request) as [sent r].
    simpl. now intros ->.
  - intros x. destruct (SimpleLB.attempt selector backends request) as [[sent r] s'].
    simpl. now intros ->.
  - intros x Hx. unfold SmartLB.attempt, SmartLB.route, SimpleLB.attempt, SimpleLB.route.
    rewrite Hx. now split.
  - intros body x Hb Hx.
    unfold SmartLB.attempt, SmartLB.route, SimpleLB.attempt, SimpleLB.route.
    rewrite Hb. simpl. rewrite Hx. now split.
  - intros body model x Hb Hm Hx. unfold SmartLB.attempt, SmartLB.route.
    rewrite Hb. simpl. rewrite Hm. simpl. now rewrite Hx.
  - intros body model x Hb Hm Hx. unfold SimpleLB.attempt, SimpleLB.route.
    rewrite Hb. simpl. rewrite Hm. simpl. now rewrite Hx.
  - intros body e x Hr Hx. unfold SmartLB.attempt, forward.
    rewrite Hr, Hx. reflexivity.
  - intros body e selector' x Hr Hx. unfold SimpleLB.attempt, forward.
    rewrite Hr, Hx. reflexivity.
  - intros body e response x Hr Hp Hx. unfold SmartLB.attempt, forward.
    rewrite Hr, Hp. simpl. now rewrite Hx.
  - intros body e selector' response x Hr Hp Hx. unfold SimpleLB.attempt, forward.
    rewrite Hr, Hp. simpl. now rewrite Hx.
Qed.

End Proxy.

Section ProxyExamples.
Import Http.

(** A backend that cannot be reached: the caller gets one 500 with the
    message of the failure, after a single POST. *)
Example unreachable_backend_gives_500 :
  let request :=
    mk_request (Ok (JObj [("model", JStr "Qwen/Qwen2.5-7B-Instruct");
                          ("stream", JBool false)]))
               "/v1/chat/completions" [] in
  let backends : Backends :=
    fun _ => Raise (mk_exn OtherException "All connection attempts failed") in
  snd (SmartLB.proxy_request Sample.six ∅ backends request)
  = HTTPException 500 "All connection attempts failed"
  ∧ post_url <$> fst (SmartLB.proxy_request Sample.six ∅ backends request)
    = ["http://vllm-2:8000/v1/chat/completions"].
Proof. cbv zeta. split; vm_compute; reflexivity. Qed.

(** A body that is not JSON, and a request for a model on a deployment of
    two backends: a 500 each, and no POST. *)
Example bad_requests_give_500 :
  let broken := mk_request (Raise (mk_exn ValueError "Expecting value"))
                           "/v1/completions" [] in
  let request := mk_request (Ok (JObj [("model", JStr "Qwen/Qwen2.5-7B-Instruct")]))
                            "/v1/completions" [] in
  let backends : Backends := fun _ => Raise (mk_exn OtherException "unused") in
  SmartLB.proxy_request Sample.six ∅ backends broken
  = ([], HTTPException 500 "Expecting value")
  ∧ SmartLB.proxy_request ["http://vllm-0:8000"; "http://vllm-1:8000"] ∅ backends request
    = ([], HTTPException 500 "list index out of range").
Proof. cbv zeta. split; vm_compute; reflexivity. Qed.

End ProxyExamples.

(** * Further properties of the two balancers *)

(** ** The selector: isolation and optimality *)

Section SelectorChoice.
Import SmartLB.

Lemma flt_trans x y z : flt x y = true → flt y z = true → flt x z = true.
Proof.
  unfold flt, SFltb.
  destruct x as [sx|sx| |sx mx ex], y as [sy|sy| |sy my ey], z as [sz|sz| |sz mz ez];
    simpl; try (destruct sx); try (destruct sy); try (destruct sz); simpl;
    try congruence.
  all: change (Pos.compare_cont Eq) with Pos.compare.
  all: destruct (Z.compare_spec ex ey), (Z.compare_spec ey ez), (Z.compare_spec ex ez);
    subst; simpl; try congruence; try lia.
  all: destruct (Pos.compare_spec mx my), (Pos.compare_spec my mz),
         (Pos.compare_spec mx mz); subst; simpl; try congruence; try lia.
Qed.

Lemma flt_irrefl x : flt x x = false.
Proof. destruct (flt x x) eqn:E; [|reflexivity]. now rewrite (flt_asym x x E) in E. Qed.

(** Neither [+inf] nor NaN is below anything. *)
Lemma flt_not_below_inf x y : flt x inf = false → flt x y = false.
Proof.
  intros H. destruct (flt x y) eqn:E; [|reflexivity].
  now rewrite (flt_inf x y E) in H.
Qed.

Variable endpoint_metrics : gmap string Metrics.

(** What the scanning loop maintains: no candidate met is below the
    minimum, the minimum never grows, and once the state has moved the
    minimum is the depth of the chosen candidate. *)
Lemma scan_minimum (cs : list string) (st : spec_float * string) :
  let st' := fold_left (scan_step endpoint_metrics) cs st in
  (∀ e, e ∈ cs → flt (depth_of endpoint_metrics e) (fst st') = false)
  ∧ (∀ x, flt x (fst st) = false → flt x (fst st') = false)
  ∧ (st' = st ∨ fst st' = depth_of endpoint_metrics (snd st')).
Proof.
  revert st. induction cs as [|c cs IH]; intros st; simpl.
  - split; [|split; [auto | now left]]. intros e He. now apply elem_of_nil in He.
  - destruct (IH (scan_step endpoint_metrics st c)) as (Hall & Hmono & Hst).
    assert (Hstep : ∀ x, flt x (fst st) = false →
                         flt x (fst (scan_step endpoint_metrics st c)) = false).
    { intros x Hx. unfold scan_step.
      destruct (flt (depth_of endpoint_metrics c) (fst st)) eqn:E; [|exact Hx].
      simpl. destruct (flt x (depth_of endpoint_metrics c)) eqn:E'; [|reflexivity].
      now rewrite (flt_trans _ _ _ E' E) in Hx. }
    split; [|split].
    + intros e He. apply elem_of_cons in He as [->|He]; [|now apply Hall].
      apply Hmono. unfold scan_step.
      destruct (flt (depth_of endpoint_metrics c) (fst st)) eqn:E; [|exact E].
      simpl. apply flt_irrefl.
    + intros x Hx. now apply Hmono, Hstep.
    + destruct Hst as [Hsame|Hmin]; [|now right]. rewrite Hsame.
      unfold scan_step.
      destruct (flt (depth_of endpoint_metrics c) (fst st)); [now right | now left].
Qed.

Lemma least_busy_minimal (cs : list string) (r : string) :
  least_busy endpoint_metrics cs = Ok r →
  ∀ e, e ∈ cs →
       flt (depth_of endpoint_metrics e) (depth_of endpoint_metrics r) = false.
Proof.
  unfold least_busy, index. destruct (cs !! 0%nat) as [c0|]; [|discriminate].
  simpl. intros [= <-] e He.
  destruct (scan_minimum cs (inf, c0)) as (Hall & _ & Hst). simpl in *.
  destruct Hst as [Hsame|Hmin].
  - apply flt_not_below_inf. specialize (Hall e He). now rewrite Hsame in Hall.
  - rewrite <- Hmin. now apply Hall.
Qed.

(** X1: a call that names a registered model is answered with one of the
    two replicas of that model, never with a backend of another model. *)
Theorem X1_registered_model_stays_on_its_replicas (endpoints : list string)
    d (name : string) (rs : list string) :
  model_endpoints endpoints = Ok d → d !! name = Some rs →
  ∃ e, get_best_endpoint endpoints endpoint_metrics (JStr name) = Ok e ∧ e ∈ rs.
Proof.
  intros Hd Hl. unfold get_best_endpoint.
  rewrite (candidates_registered _ _ _ _ Hd Hl). simpl.
  destruct (registered_name _ _ _ _ Hd Hl) as (_ & Hlen & _).
  apply least_busy_total. intros ->. discriminate.
Qed.

(** X2: whatever the selector returns, no candidate of the call has a
    queue depth strictly below that of the returned backend. *)
Theorem X2_selected_backend_is_minimal (endpoints : list string) (model : json)
    (cs : list string) (r : string) :
  candidates_of endpoints model = Ok cs →
  get_best_endpoint endpoints endpoint_metrics model = Ok r →
  r ∈ cs
  ∧ Forall (fun e => flt (depth_of endpoint_metrics e)
                         (depth_of endpoint_metrics r) = false) cs.
Proof.
  unfold get_best_endpoint. intros -> Hr. simpl in Hr.
  split; [now apply (least_busy_elem endpoint_metrics)|].
  apply Forall_forall. now apply least_busy_minimal.
Qed.

End SelectorChoice.

Section SelectorChoiceExamples.
Import SmartLB.

Lemma X1_registered_model_stays_on_its_replicas_witness :
  ∃ e, get_best_endpoint Sample.six ∅ (JStr LLAMA_70B) = Ok e
       ∧ e ∈ ["http://vllm-4:8000"; "http://vllm-5:8000"].
Proof.
  eapply (X1_registered_model_stays_on_its_replicas ∅ Sample.six).
  - reflexivity.
  - vm_compute. reflexivity.
Defined.

Lemma X2_selected_backend_is_minimal_witness :
  let c : gmap string Metrics :=
    <[ "http://vllm-0:8000" := Sample.sample "http://vllm-0:8000" Sample.five ]>
      {[ "http://vllm-3:8000" := Sample.sample "http://vllm-3:8000" Sample.two ]} in
  "http://vllm-3:8000" ∈ Sample.six
  ∧ Forall (fun e => flt (depth_of c e) (depth_of c "http://vllm-3:8000") = false)
      Sample.six.
Proof.
  cbv zeta.
  apply (X2_selected_backend_is_minimal _ Sample.six JNull Sample.six).
  - reflexivity.
  - vm_compute. reflexivity.
Defined.

End SelectorChoiceExamples.

(** ** Configuration and the metrics text *)

Section Text.
Import Notions.

Lemma split_on_nonempty (sep : ascii) (s : string) : split_on sep s ≠ [].
Proof.
  induction s as [|c s IH]; simpl; [discriminate|].
  destruct (Ascii.eqb c sep); [discriminate|].
  destruct (split_on sep s); [contradiction | discriminate].
Qed.

Lemma split_on_app (sep : ascii) (a b : string) :
  split_on sep (a ++ String sep b) = (split_on sep a ++ split_on sep b)%list.
Proof.
  induction a as [|c a IH]; simpl.
  - now rewrite Ascii.eqb_refl.
  - destruct (Ascii.eqb c sep); [now rewrite IH|].
    rewrite IH. pose proof (split_on_nonempty sep a).
    now destruct (split_on sep a).
Qed.

Lemma contains_char_cons (sep c : ascii) (s : string) :
  contains (String sep EmptyString) (String c s) = false →
  Ascii.eqb c sep = false ∧ contains (String sep EmptyString) s = false.
Proof.
  simpl. destruct (ascii_dec sep c) as [->|Hne]; simpl.
  - now destruct s.
  - intros H. split; [|exact H].
    destruct (Ascii.eqb_spec c sep); [congruence | reflexivity].
Qed.

Lemma split_on_free (sep : ascii) (s : string) :
  contains (String sep EmptyString) s = false → split_on sep s = [s].
Proof.
  induction s as [|c s IH]; intros H; [reflexivity|].
  apply contains_char_cons in H as [Hc Hs]. simpl. now rewrite Hc, IH.
Qed.

Lemma split_on_join (sep : ascii) (l : list string) :
  l ≠ [] →
  Forall (fun x => contains (String sep EmptyString) x = false) l →
  split_on sep (join sep l) = l.
Proof.
  induction l as [|x rest IH]; intros Hne Hfree; [contradiction|].
  apply Forall_cons in Hfree as [Hx Hrest].
  destruct rest as [|y rest']; [now apply split_on_free|].
  change (join sep (x :: y :: rest')) with (x ++ String sep (join sep (y :: rest'))).
  rewrite split_on_app, (split_on_free sep x Hx), IH; [reflexivity | discriminate | exact Hrest].
Qed.

(** X3: whatever the environment variable holds, also when it is unset
    or empty, the configured list is never empty and a call without model
    returns one of its entries; with the variable unset or empty that
    entry is the empty address. *)
Theorem X3_no_model_routing_never_fails (env : option string)
    (c : gmap string SmartLB.Metrics) :
  SmartLB.load_endpoints env ≠ []
  ∧ (∃ e, SmartLB.get_best_endpoint (SmartLB.load_endpoints env) c JNull = Ok e
          ∧ e ∈ SmartLB.load_endpoints env)
  ∧ SmartLB.get_best_endpoint (SmartLB.load_endpoints None) c JNull = Ok ""
  ∧ SmartLB.get_best_endpoint (SmartLB.load_endpoints (Some "")) c JNull = Ok "".
Proof.
  assert (Hne : SmartLB.load_endpoints env ≠ []) by apply split_on_nonempty.
  split; [exact Hne|]. split; [now apply least_busy_total|].
  assert (H : SmartLB.get_best_endpoint [""] c JNull = Ok "").
  { destruct (least_busy_total c [""]) as (e & He & Hin); [discriminate|].
    apply list_elem_of_singleton in Hin. now subst e. }
  split; exact H.
Qed.

(** X4: a non-empty list of addresses without commas, written to the
    environment variable joined by commas, is read back as that list. *)
Theorem X4_endpoints_round_trip (l : list string) :
  l ≠ [] →
  Forall (fun x => contains "," x = false) l →
  SmartLB.load_endpoints (Some (join "," l)) = l
  ∧ SimpleLB.load_endpoints (Some (join "," l)) = l.
Proof.
  intros Hne Hfree. unfold SmartLB.load_endpoints, SimpleLB.load_endpoints. simpl.
  split; now apply split_on_join.
Qed.

Lemma X4_endpoints_round_trip_witness :
  SmartLB.load_endpoints (Some (join "," Sample.six)) = Sample.six
  ∧ SimpleLB.load_endpoints (Some (join "," Sample.six)) = Sample.six.
Proof.
  apply (X4_endpoints_round_trip Sample.six).
  - discriminate.
  - repeat constructor.
Defined.

End Text.

Section MetricsText.
Import Notions SmartLB.

Variable py_float : string → option spec_float.

Lemma fetch_200 (e : string) (body : string) (now : spec_float) :
  fetch_endpoint_metrics py_float e (Ok (mk_reply 200 body)) now
  = mk_metrics e (default zero (last (depth_readings py_float body))) now true.
Proof.
  unfold fetch_endpoint_metrics, scrape. simpl.
  now rewrite scan_lines_readings.
Qed.

Lemma default_last_app {A} (q : A) (x y : list A) :
  default q (last (x ++ y)) = default (default q (last x)) (last y).
Proof. rewrite last_app. now destruct (last y). Qed.

(** X13: text appended after a line break overrides the queue depth of
    the text before it exactly when it holds a line that yields a value;
    otherwise the depth read from the earlier text stands. *)
Theorem X13_later_lines_override (e : string) (a b : string) (now : spec_float) :
  fetch_endpoint_metrics py_float e (Ok (mk_reply 200 (a ++ String "010" b))) now
  = mk_metrics e
      (default (queue_depth (fetch_endpoint_metrics py_float e (Ok (mk_reply 200 a)) now))
               (last (depth_readings py_float b)))
      now true.
Proof.
  rewrite !fetch_200. simpl. unfold depth_readings.
  now rewrite split_on_app, omap_app, default_last_app.
Qed.

Lemma prefix_head (a c : ascii) (k s : string) :
  String.prefix (String a k) (String c s) = true → a = c.
Proof. simpl. now destruct (ascii_dec a c). Qed.

Lemma contains_nonblank (a : ascii) (k s : string) :
  isspace a = false → contains (String a k) s = true → has_nonblank s = true.
Proof.
  intros Ha. induction s as [|c s IH]; [discriminate|].
  cbn [contains]. intros H. apply orb_true_iff in H as [H|H].
  - apply prefix_head in H as <-. unfold has_nonblank. simpl. now rewrite Ha.
  - unfold has_nonblank in *. simpl. rewrite (IH H). apply orb_true_r.
Qed.

Lemma split_ws_from_nonempty (s : string) (acc : list ascii) :
  acc ≠ [] ∨ has_nonblank s = true → split_ws_from acc s ≠ [].
Proof.
  revert acc. induction s as [|c s IH]; intros acc H.
  - destruct H as [H|H]; [|discriminate]. simpl. now destruct acc.
  - simpl. destruct (isspace c) eqn:Ec.
    + destruct acc as [|a acc]; [|discriminate]. simpl. apply IH. right.
      destruct H as [H|H]; [contradiction|].
      unfold has_nonblank in *. simpl in H. now rewrite Ec in H.
    + apply IH. now left.
Qed.

Lemma string_of_list_ascii_nonempty (l : list ascii) :
  l ≠ [] → string_of_list_ascii l ≠ EmptyString.
Proof. destruct l; [contradiction | discriminate]. Qed.

Lemma split_ws_from_tokens (s : string) (acc : list ascii) :
  Forall (fun tok => tok ≠ EmptyString) (split_ws_from acc s).
Proof.
  assert (Hflush : ∀ acc : list ascii,
    Forall (fun tok => tok ≠ EmptyString)
      match acc with [] => [] | _ => [string_of_list_ascii (rev acc)] end).
  { intros [|a l]; constructor; [|constructor].
    apply string_of_list_ascii_nonempty. simpl. now destruct (rev l). }
  revert acc. induction s as [|c s IH]; intros acc; simpl.
  - apply Hflush.
  - destruct (isspace c); [|apply IH].
    apply Forall_app. split; [apply Hflush | apply IH].
Qed.

(** X14: a line that holds the key always has a last token, and that
    token is not empty: the [IndexError] arm of the inner handler is dead,
    and such a line (when not a comment) changes the queue depth exactly
    when [float] accepts its last token. *)
Theorem X14_key_line_has_last_token (q : spec_float) (line : string) :
  contains QUEUE_KEY line = true →
  ∃ tok, index_last (split_ws line) = Ok tok
         ∧ tok ≠ ""
         ∧ (startswith line "#" = false →
            parse_line py_float q line = Ok (default q (py_float tok)))
         ∧ (startswith line "#" = true → parse_line py_float q line = Ok q).
Proof.
  intros Hkey.
  assert (Hne : split_ws line ≠ []).
  { apply split_ws_from_nonempty. right.
    now apply (contains_nonblank "v" "llm:num_requests_waiting"). }
  apply last_is_Some in Hne as [tok Htok]. exists tok.
  unfold index_last. rewrite Htok. split; [reflexivity|]. split.
  - apply last_Some_elem_of in Htok.
    pose proof (split_ws_from_tokens line []) as Hall.
    rewrite Forall_forall in Hall. now apply Hall.
  - unfold parse_line, index_last, float_of. rewrite Hkey, Htok. simpl.
    split; intros ->; simpl; [|reflexivity].
    now destruct (py_float tok).
Qed.

End MetricsText.

Section MetricsTextExamples.
Import SmartLB.

Lemma X14_key_line_has_last_token_witness :
  ∃ tok, index_last (split_ws "vllm:num_requests_waiting{model_name=m} 2.0") = Ok tok
         ∧ tok ≠ ""
         ∧ (startswith "vllm:num_requests_waiting{model_name=m} 2.0" "#" = false →
            parse_line Sample.py_float zero "vllm:num_requests_waiting{model_name=m} 2.0"
            = Ok (default zero (Sample.py_float tok)))
         ∧ (startswith "vllm:num_requests_waiting{model_name=m} 2.0" "#" = true →
            parse_line Sample.py_float zero "vllm:num_requests_waiting{model_name=m} 2.0"
            = Ok zero).
Proof.
  apply (X14_key_line_has_last_token Sample.py_float zero
           "vllm:num_requests_waiting{model_name=m} 2.0").
  vm_compute. reflexivity.
Defined.

(** A text with the gauge reported twice and a comment in between. *)
Example last_reading_wins :
  queue_depth
    (fetch_endpoint_metrics Sample.py_float "http://vllm-0:8000"
       (Ok (mk_reply 200
              ("vllm:num_requests_waiting 5.0" ++ String "010"
               ("# TYPE vllm:num_requests_waiting gauge" ++ String "010"
                "vllm:num_requests_waiting 2.0"))))
       zero)
  = Sample.two.
Proof. vm_compute. reflexivity. Qed.

End MetricsTextExamples.

(** ** The cache the poller builds *)

Section Cache.
Import Notions SmartLB.

#[local] Set Warnings "-clear-no-such-hyp".

Variable py_float : string → option spec_float.

Lemma gather_metrics_endpoints (l : list string) (net : nat → observation) :
  endpoint <$> gather_metrics py_float l net = l.
Proof.
  revert net. induction l as [|e l IH]; intros net; [reflexivity|].
  rewrite gather_metrics_cons, fmap_cons, fetch_endpoint. f_equal. apply IH.
Qed.

Lemma store_metrics_dom (c : gmap string Metrics) (results : list Metrics) :
  dom (store_metrics c results)
  = dom c ∪ (list_to_set (endpoint <$> results) : gset string).
Proof.
  revert c. induction results as [|m rest IH]; intros c.
  - simpl. set_solver.
  - unfold store_metrics in *. simpl. rewrite IH, dom_insert_L. set_solver.
Qed.

Lemma store_metrics_keyed (c : gmap string Metrics) (results : list Metrics) :
  keyed c → keyed (store_metrics c results).
Proof.
  revert c. induction results as [|m rest IH]; intros c Hc; [exact Hc|].
  unfold store_metrics in *. simpl. apply IH.
  intros k m' Hl. apply lookup_insert_Some in Hl as [[<- <-]|[_ Hl]];
    [reflexivity | now apply Hc].
Qed.

Lemma poll_tick_dom (l : list string) (net : nat → observation) (c : gmap string Metrics) :
  dom (poll_tick py_float l net c) = dom c ∪ (list_to_set l : gset string).
Proof. unfold poll_tick. now rewrite store_metrics_dom, gather_metrics_endpoints. Qed.

Lemma metrics_poller_keyed (l : list string) ticks (c : gmap string Metrics) :
  keyed c → keyed (metrics_poller py_float l ticks c).
Proof.
  revert c. induction ticks as [|net ticks IH]; intros c Hc; [exact Hc|].
  simpl. apply IH. now apply store_metrics_keyed.
Qed.

Lemma metrics_poller_dom (l : list string) ticks (c : gmap string Metrics) :
  ticks ≠ [] →
  dom (metrics_poller py_float l ticks c) = dom c ∪ (list_to_set l : gset string).
Proof.
  revert c. induction ticks as [|net ticks IH]; intros c Hne; [contradiction|].
  simpl. destruct ticks as [|net' ticks'].
  - simpl. apply poll_tick_dom.
  - rewrite IH by discriminate. rewrite poll_tick_dom. set_solver.
Qed.

(** The last result for a configured backend exists. *)
Lemma gather_metrics_some (l : list string) (net : nat → observation) (e : string) :
  e ∈ l →
  is_Some (last (filter (fun m => endpoint m = e) (gather_metrics py_float l net))).
Proof.
  intros He. apply last_is_Some.
  rewrite <- (gather_metrics_endpoints l net) in He.
  apply list_elem_of_fmap in He as (m & Hm & Hin).
  intros Hnil. apply (filter_nil_not_elem_of _ _ m Hnil); [now symmetry | exact Hin].
Qed.

Lemma last_index (l : list string) (e : string) :
  e ∈ l → ∃ i, l !! i = Some e ∧ ∀ j, (i < j)%nat → l !! j ≠ Some e.
Proof.
  induction l as [|x l IH]; intros He; [now apply elem_of_nil in He|].
  destruct (decide (e ∈ l)) as [Hin|Hout].
  - destruct (IH Hin) as (i & Hi & Hlast). exists (S i). split; [exact Hi|].
    intros [|j] Hj; [lia|]. simpl. apply Hlast. lia.
  - apply elem_of_cons in He as [->|He]; [|contradiction].
    exists 0%nat. split; [reflexivity|].
    intros [|j] Hj; [lia|]. simpl. intros Hl.
    apply Hout, list_elem_of_lookup. eauto.
Qed.

Lemma fetch_healthy (e : string) reply now :
  healthy (fetch_endpoint_metrics py_float e reply now) = true
  ↔ ∃ body, reply = Ok (mk_reply 200 body).
Proof.
  unfold fetch_endpoint_metrics, scrape.
  destruct reply as [[st body]|x]; simpl.
  - destruct (Z.eqb_spec st 200) as [->|Hne]; simpl.
    + rewrite scan_lines_readings. simpl. split; [eauto | reflexivity].
    + split; [discriminate|]. intros (b & [= ? ?]). contradiction.
  - split; [discriminate|]. now intros (b & ?).
Qed.

Lemma healthy_count_le (l : list Metrics) :
  (sum_list ((fun m => if healthy m then 1 else 0) <$> l) ≤ length l)%nat.
Proof.
  induction l as [|m l IH]; [reflexivity|].
  rewrite fmap_cons. change (sum_list (?x :: ?r)) with (x + sum_list r)%nat.
  simpl. destruct (healthy m); lia.
Qed.

Lemma size_list_to_set_le (l : list string) :
  (size (list_to_set l : gset string) ≤ length l)%nat.
Proof.
  induction l as [|x l IH].
  - rewrite list_to_set_nil, size_empty. reflexivity.
  - rewrite list_to_set_cons, size_union_alt, size_singleton.
    assert (size ((list_to_set l : gset string) ∖ {[x]}) ≤ size (list_to_set l : gset string))%nat
      by (apply subseteq_size; set_solver).
    simpl. lia.
Qed.

(** X6: started on the empty cache, the poller keeps every entry under
    the address the entry names, and from the first tick on the keys of the
    cache are exactly the configured addresses. *)
Theorem X6_cache_keys_are_the_endpoints (VLLM_ENDPOINTS : list string)
    (ticks : list (nat → observation)) :
  keyed (metrics_poller py_float VLLM_ENDPOINTS ticks ∅)
  ∧ dom (metrics_poller py_float VLLM_ENDPOINTS ticks ∅)
    = (match ticks with [] => ∅ | _ => list_to_set VLLM_ENDPOINTS end : gset string).
Proof.
  split.
  - apply metrics_poller_keyed. intros k m Hl. now rewrite lookup_empty in Hl.
  - destruct ticks as [|net ticks]; [apply dom_empty_L|].
    rewrite metrics_poller_dom by discriminate. rewrite dom_empty_L. set_solver.
Qed.

(** X7: no history is kept: after any run of ticks, the entry of a
    configured backend is the one the latest tick alone produces. *)
Theorem X7_latest_tick_decides (VLLM_ENDPOINTS : list string)
    (ticks : list (nat → observation)) (net : nat → observation)
    (c : gmap string Metrics) (e : string) :
  e ∈ VLLM_ENDPOINTS →
  is_Some (metrics_poller py_float VLLM_ENDPOINTS (ticks ++ [net])%list c !! e)
  ∧ metrics_poller py_float VLLM_ENDPOINTS (ticks ++ [net])%list c !! e
    = poll_tick py_float VLLM_ENDPOINTS net ∅ !! e.
Proof.
  intros He. rewrite metrics_poller_snoc. unfold poll_tick.
  rewrite !store_metrics_lookup.
  destruct (gather_metrics_some VLLM_ENDPOINTS net e He) as [m ->].
  split; [eauto | reflexivity].
Qed.

(** X8: on a cache built by the poller, the health call never counts more
    healthy endpoints than it reports configured ones. *)
Theorem X8_healthy_count_bounded (VLLM_ENDPOINTS : list string)
    (ticks : list (nat → observation)) :
  (healthy_endpoints (health VLLM_ENDPOINTS
                        (metrics_poller py_float VLLM_ENDPOINTS ticks ∅))
   ≤ endpoints (health VLLM_ENDPOINTS
                  (metrics_poller py_float VLLM_ENDPOINTS ticks ∅)))%nat.
Proof.
  unfold health. simpl.
  etransitivity; [apply healthy_count_le|].
  rewrite length_fmap, length_map_to_list, <- size_dom.
  destruct ticks as [|net ticks].
  - simpl. rewrite dom_empty_L, size_empty. lia.
  - rewrite metrics_poller_dom by discriminate.
    rewrite dom_empty_L, (left_id_L ∅ (∪)). apply size_list_to_set_le.
Qed.

Lemma health_status_healthy (l : list string) (c : gmap string Metrics) :
  status (health l c) = "healthy" ↔ ∃ e m, c !! e = Some m ∧ healthy m = true.
Proof.
  pose proof (healthy_count_cache c) as Hcount. unfold health. simpl.
  destruct (Nat.ltb_spec 0 (sum_list
         ((fun m => if healthy m then 1%nat else 0%nat)
            <$> (map_to_list c).*2))) as [Hpos|Hzero].
  - split; [intros _; exact (proj1 Hcount Hpos) | reflexivity].
  - split; [discriminate|]. intros H. apply (proj2 Hcount) in H. lia.
Qed.

Lemma poll_tick_entry (l : list string) (net : nat → observation)
    (c : gmap string Metrics) (e : string) (i : nat) :
  l !! i = Some e → (∀ j, (i < j)%nat → l !! j ≠ Some e) →
  poll_tick py_float l net c !! e
  = Some (fetch_endpoint_metrics py_float e (obs_reply (net i)) (obs_clock (net i))).
Proof.
  intros Hi Hlast. unfold poll_tick.
  now rewrite store_metrics_lookup, (gather_metrics_last py_float l net e i Hi Hlast).
Qed.

(** X9: once a tick has run, the health call says "healthy" exactly when,
    in the latest tick, the scrape of some configured backend (its last
    one, if the address is listed twice) was answered with status 200. *)
Theorem X9_health_follows_latest_tick (VLLM_ENDPOINTS : list string)
    (ticks : list (nat → observation)) (net : nat → observation) :
  status (health VLLM_ENDPOINTS
            (metrics_poller py_float VLLM_ENDPOINTS (ticks ++ [net])%list ∅))
  = "healthy"
  ↔ ∃ i e body,
      VLLM_ENDPOINTS !! i = Some e
      ∧ (∀ j, (i < j)%nat → VLLM_ENDPOINTS !! j ≠ Some e)
      ∧ obs_reply (net i) = Ok (mk_reply 200 body).
Proof.
  rewrite health_status_healthy, metrics_poller_snoc. split.
  - intros (e & m & Hl & Hh).
    assert (He : e ∈ VLLM_ENDPOINTS).
    { assert (Hd : e ∈ dom (poll_tick py_float VLLM_ENDPOINTS net
                              (metrics_poller py_float VLLM_ENDPOINTS ticks ∅)))
        by (apply elem_of_dom; eauto).
      rewrite poll_tick_dom in Hd. apply elem_of_union in Hd as [Hd|Hd].
      - destruct ticks as [|t ticks'].
        + simpl in Hd. rewrite dom_empty_L in Hd. now apply elem_of_empty in Hd.
        + rewrite metrics_poller_dom in Hd by discriminate.
          rewrite dom_empty_L, (left_id_L ∅ (∪)) in Hd.
          now apply elem_of_list_to_set in Hd.
      - now apply elem_of_list_to_set in Hd. }
    destruct (last_index VLLM_ENDPOINTS e He) as (i & Hi & Hlast).
    rewrite (poll_tick_entry _ _ _ _ _ Hi Hlast) in Hl. injection Hl as <-.
    apply fetch_healthy in Hh as [body Hb]. now exists i, e, body.
  - intros (i & e & body & Hi & Hlast & Hb).
    exists e. eexists. split; [apply (poll_tick_entry _ _ _ _ _ Hi Hlast)|].
    apply fetch_healthy. eauto.
Qed.

End Cache.

Section CacheExamples.
Import SmartLB.

Lemma X7_latest_tick_decides_witness :
  let l := ["http://vllm-0:8000"; "http://vllm-1:8000"] in
  is_Some (metrics_poller Sample.py_float l ([Sample.up] ++ [Sample.down])%list ∅
           !! "http://vllm-0:8000")
  ∧ metrics_poller Sample.py_float l ([Sample.up] ++ [Sample.down])%list ∅
    !! "http://vllm-0:8000"
    = poll_tick Sample.py_float l Sample.down ∅ !! "http://vllm-0:8000".
Proof.
  cbv zeta.
  apply (X7_latest_tick_decides Sample.py_float
           ["http://vllm-0:8000"; "http://vllm-1:8000"] [Sample.up] Sample.down ∅).
  repeat constructor.
Defined.

(** After a tick in which both backends answer and one in which the first
    times out, one endpoint of two is healthy. *)
Example health_after_two_ticks :
  health ["http://vllm-0:8000"; "http://vllm-1:8000"]
    (metrics_poller Sample.py_float ["http://vllm-0:8000"; "http://vllm-1:8000"]
       [Sample.up; Sample.down] ∅)
  = mk_health "healthy" 2 1.
Proof. vm_compute. reflexivity. Qed.

End CacheExamples.

(** ** The round-robin selector: what every reachable selector satisfies *)

Section Started.
Import Notions SimpleLB.

Lemma registered_spec (s : string) :
  registered s = true
  ↔ s = "meta-llama/Llama-3.1-8B-Instruct" ∨ s = "Qwen/Qwen2.5-7B-Instruct"
    ∨ s = "meta-llama/Llama-3.3-70B-Instruct".
Proof.
  unfold registered. rewrite !orb_true_iff, !String.eqb_eq. tauto.
Qed.

Lemma started_init (l : list string) (self : RoundRobinSelector) :
  init l = Ok self → started l self.
Proof.
  intros Hi. apply init_Ok in Hi as (e0&e1&e2&e3&e4&e5&rest&d&->&->&->).
  constructor; simpl.
  - intros s. rewrite lookup_fmap, fmap_is_Some, registered_spec. unfold is_Some. split.
    + intros [rs Hrs]. rewrite !lookup_insert_Some, lookup_empty in Hrs.
      destruct Hrs as [[<- _]|[_ [[<- _]|[_ [[<- _]|[_ ?]]]]]]; try discriminate; tauto.
    + intros [-> | [-> | ->]]; eexists.
      * apply lookup_insert_eq.
      * rewrite lookup_insert_ne by discriminate. apply lookup_insert_eq.
      * rewrite !(lookup_insert_ne _ _ "meta-llama/Llama-3.3-70B-Instruct")
          by discriminate.
        apply lookup_insert_eq.
  - intros s it Hl. rewrite lookup_fmap in Hl.
    apply fmap_Some in Hl as (rs & Hrs & ->). simpl.
    rewrite !lookup_insert_Some, lookup_empty in Hrs.
    destruct Hrs as [[_ <-]|[_ [[_ <-]|[_ [[_ <-]|[_ ?]]]]]]; try discriminate.
    all: split; [simpl; lia|].
    all: intros e He; apply list_elem_of_In in He; apply list_elem_of_In.
    all: simpl in *; tauto.
  - split; [reflexivity | simpl; lia].
Qed.

Lemma next_inside (it : cycle) :
  (cursor it < length (saved it))%nat →
  ∃ e, next it = Ok (e, mk_cycle (saved it) (S (cursor it) mod length (saved it))%nat)
       ∧ e ∈ saved it
       ∧ (S (cursor it) mod length (saved it) < length (saved it))%nat.
Proof.
  intros Hlt. destruct (lookup_lt_is_Some_2 _ _ Hlt) as [e He].
  exists e. unfold next. rewrite He. split; [reflexivity|]. split.
  - apply list_elem_of_lookup. eauto.
  - apply Nat.mod_upper_bound. lia.
Qed.

(** A call that returns keeps the shape and returns a configured backend. *)
Lemma started_step (l : list string) (self self' : RoundRobinSelector)
    (model : json) (e : string) :
  started l self → get_next_endpoint self model = Ok (e, self') →
  started l self' ∧ e ∈ l.
Proof.
  intros [Hkeys Hmodels [Hgs Hgc]] Hcall.
  assert (Hglobal : ∀ it', next (global_iterator self) = Ok (e, it') →
            started l (mk_selector (endpoints self) (model_endpoints self)
                                   (model_iterators self) it') ∧ e ∈ l).
  { intros it' Hn. rewrite <- Hgs in Hgc.
    destruct (next_inside _ Hgc) as (e' & Hn' & Hin & Hlt).
    rewrite Hn' in Hn. injection Hn as -> <-. rewrite Hgs in *.
    split; [|exact Hin]. constructor; simpl; auto. }
  unfold get_next_endpoint in Hcall.
  destruct (model_iterator self model) as [[[name it]|]|x] eqn:Hfound;
    simpl in Hcall; try discriminate.
  - assert (Hit : model_iterators self !! name = Some it).
    { unfold model_iterator in Hfound. destruct (truthy model); [|discriminate].
      unfold dict_find in Hfound. destruct (unhashable model); [discriminate|].
      destruct model; simpl in Hfound; try discriminate.
      destruct (model_iterators self !! s) eqn:E; simpl in Hfound; [|discriminate].
      now injection Hfound as <- <-. }
    destruct (Hmodels name it Hit) as [Hlt Hsub].
    destruct (next_inside _ Hlt) as (e' & Hn & Hin & Hlt').
    rewrite Hn in Hcall. simpl in Hcall. injection Hcall as <- <-.
    split; [|now apply Hsub]. constructor; simpl.
    + intros s. rewrite <- Hkeys. rewrite lookup_insert_is_Some.
      split; [intros [<-|[_ ?]]; [eauto | assumption]|].
      intros Hs. destruct (decide (name = s)); [now left | now right].
    + intros s it' Hl. apply lookup_insert_Some in Hl as [[_ <-]|[_ Hl]];
        [simpl; auto | now apply (Hmodels s)].
    + auto.
  - destruct (next (global_iterator self)) as [[e' it']|x] eqn:Hn;
      simpl in Hcall; [|discriminate].
    injection Hcall as -> <-. now apply Hglobal.
Qed.

(** A call without model, or with a hashable one, returns. *)
Lemma started_total (l : list string) (self : RoundRobinSelector) (model : json) :
  started l self → truthy model = false ∨ unhashable model = None →
  ∃ e self', get_next_endpoint self model = Ok (e, self').
Proof.
  intros [Hkeys Hmodels [Hgs Hgc]] Hmodel.
  rewrite <- Hgs in Hgc. destruct (next_inside _ Hgc) as (eg & Hng & _ & _).
  unfold get_next_endpoint.
  assert (Hfound : ∃ o, model_iterator self model = Ok o
                        ∧ ∀ name it, o = Some (name, it) →
                                     model_iterators self !! name = Some it).
  { unfold model_iterator. destruct (truthy model) eqn:Et.
    - destruct Hmodel as [?|Hh]; [discriminate|].
      unfold dict_find. rewrite Hh.
      destruct model; simpl; try (eexists; split; [reflexivity | discriminate]).
      destruct (model_iterators self !! s) eqn:E; simpl;
        (eexists; split; [reflexivity|]); [|discriminate].
      now intros name it [= <- <-].
    - eexists. split; [reflexivity | discriminate]. }
  destruct Hfound as ([[name it]|] & -> & Hit); simpl.
  - destruct (Hmodels name it (Hit _ _ eq_refl)) as [Hlt _].
    destruct (next_inside _ Hlt) as (e & -> & _ & _). simpl. eauto.
  - rewrite Hng. simpl. eauto.
Qed.

Lemma started_calls (l : list string) (models : list json) (self : RoundRobinSelector) :
  started l self → started l (snd (get_next_endpoint_calls self models)).
Proof.
  revert self. induction models as [|model rest IH]; intros self Hs; [exact Hs|].
  simpl. destruct (get_next_endpoint self model) as [[e self']|x] eqn:Hcall.
  - destruct (started_step l self self' model e Hs Hcall) as [Hs' _].
    specialize (IH self' Hs'). now destruct (get_next_endpoint_calls self' rest).
  - specialize (IH self Hs). now destruct (get_next_endpoint_calls self rest).
Qed.

(** X10: once the selector has been built, selection never fails for a
    call without model or with a hashable model, whatever calls came
    before, and it returns a configured backend. *)
Theorem X10_round_robin_never_fails (l : list string) (self : RoundRobinSelector)
    (models : list json) (model : json) :
  init l = Ok self →
  truthy model = false ∨ unhashable model = None →
  ∃ e self',
    get_next_endpoint (snd (get_next_endpoint_calls self models)) model = Ok (e, self')
    ∧ e ∈ l.
Proof.
  intros Hinit Hmodel.
  pose proof (started_calls l models self (started_init l self Hinit)) as Hs.
  destruct (started_total l _ model Hs Hmodel) as (e & self' & Hcall).
  exists e, self'. split; [exact Hcall|].
  now destruct (started_step l _ self' model e Hs Hcall).
Qed.

End Started.

(** ** The round-robin selector: the global rotation *)

Section GlobalRotation.
Import Notions SimpleLB.

Lemma model_iterator_global (l : list string) (self : RoundRobinSelector) (model : json) :
  started l self → uses_global model = true → model_iterator self model = Ok None.
Proof.
  intros [Hkeys _ _] Hg. unfold uses_global in Hg. unfold model_iterator.
  destruct (truthy model); [|reflexivity].
  destruct model; try discriminate; try reflexivity.
  unfold dict_find. simpl.
  destruct (model_iterators self !! s) as [it|] eqn:E; [|reflexivity].
  assert (registered s = true) by (apply Hkeys; eauto).
  destruct (registered s); discriminate.
Qed.

Lemma global_call (l : list string) (self : RoundRobinSelector) (model : json) (t : nat) :
  started l self → uses_global model = true →
  global_iterator self = mk_cycle l (t mod length l)%nat →
  ∃ r self',
    index l (t mod length l)%nat = Ok r
    ∧ get_next_endpoint self model = Ok (r, self')
    ∧ global_iterator self' = mk_cycle l (S t mod length l)%nat.
Proof.
  intros Hs Hg Hit.
  assert (Hne : l ≠ []).
  { destruct Hs as [_ _ [_ Hc]]. intros ->. simpl in Hc. lia. }
  destruct (next_cursor l t Hne) as (r & Hr & Hnext).
  exists r. eexists. split; [exact Hr|].
  unfold get_next_endpoint. rewrite (model_iterator_global l self model Hs Hg).
  simpl. rewrite Hit, Hnext. simpl. split; reflexivity.
Qed.

Lemma other_call_global (l : list string) (self self' : RoundRobinSelector)
    (model : json) (e : string) :
  started l self → uses_global model = false →
  get_next_endpoint self model = Ok (e, self') →
  global_iterator self' = global_iterator self.
Proof.
  intros [Hkeys _ _] Hg. unfold uses_global in Hg.
  unfold get_next_endpoint, model_iterator.
  destruct (truthy model); [|discriminate].
  destruct model; try discriminate; unfold dict_find; simpl; try discriminate.
  assert (Hreg : registered s = true) by (destruct (registered s); [reflexivity | discriminate]).
  apply Hkeys in Hreg as [it ->]. simpl.
  destruct (next it) as [[e' it']|x]; simpl; [|discriminate].
  now intros [= _ <-].
Qed.

Lemma run_global (l : list string) (models : list json) :
  ∀ (self : RoundRobinSelector) (t : nat),
    started l self →
    global_iterator self = mk_cycle l (t mod length l)%nat →
    answers_where uses_global models (fst (get_next_endpoint_calls self models))
    = rotation l t (count_where uses_global models).
Proof.
  induction models as [|model rest IH]; intros self t Hs Hit; [reflexivity|].
  simpl. destruct (uses_global model) eqn:Hg.
  - destruct (global_call l self model t Hs Hg Hit) as (r & self' & Hr & Hcall & Hit').
    rewrite Hcall.
    pose proof (IH self' (S t) (proj1 (started_step l self self' model r Hs Hcall)) Hit')
      as IHa.
    destruct (get_next_endpoint_calls self' rest) as [answers final].
    simpl in *. rewrite ?Hg, rotation_S, Hr, IHa. reflexivity.
  - destruct (get_next_endpoint self model) as [[e self']|x] eqn:Hcall.
    + assert (Hit' : global_iterator self' = mk_cycle l (t mod length l)%nat)
        by (rewrite (other_call_global l self self' model e Hs Hg Hcall); exact Hit).
      pose proof (IH self' t (proj1 (started_step l self self' model e Hs Hcall)) Hit')
        as IHa.
      destruct (get_next_endpoint_calls self' rest) as [answers final].
      simpl in *. now rewrite ?Hg.
    + pose proof (IH self t Hs Hit) as IHa.
      destruct (get_next_endpoint_calls self rest) as [answers final].
      simpl in *. now rewrite ?Hg.
Qed.

(** X11: the calls without model, or with a hashable model that is not
    registered, are answered by the whole backend list in order, round and
    round, whatever calls for registered models come in between. *)
Theorem X11_global_round_robin (l : list string) (self : RoundRobinSelector)
    (models : list json) :
  init l = Ok self →
  answers_where uses_global models (fst (get_next_endpoint_calls self models))
  = rotation l 0 (count_where uses_global models)
  ∧ Forall (fun a => is_ok a = true) (rotation l 0 (count_where uses_global models)).
Proof.
  intros Hinit. pose proof (started_init l self Hinit) as Hs. split.
  - apply run_global; [exact Hs|].
    apply init_Ok in Hinit as (e0&e1&e2&e3&e4&e5&rest&d&->&->&->).
    rewrite Nat.Div0.mod_0_l. reflexivity.
  - apply Forall_forall. intros a Ha. unfold rotation in Ha.
    apply list_elem_of_fmap in Ha as (i & -> & _).
    assert (Hlt : ((0 + i) mod length l < length l)%nat).
    { apply Nat.mod_upper_bound. destruct Hs as [_ _ [_ Hc]]. simpl in Hc. lia. }
    unfold index. destruct (lookup_lt_is_Some_2 l _ Hlt) as [r ->]. reflexivity.
Qed.

End GlobalRotation.

Section StartedExamples.
Import Notions SimpleLB.

Lemma X10_round_robin_never_fails_witness :
  ∃ e self',
    get_next_endpoint
      (snd (get_next_endpoint_calls Sample.selector
              [JStr "Qwen/Qwen2.5-7B-Instruct"; JNull; JArr [JInt 1]]))
      (JStr "mistral-7b") = Ok (e, self')
    ∧ e ∈ Sample.six.
Proof.
  apply (X10_round_robin_never_fails Sample.six Sample.selector).
  - reflexivity.
  - right. reflexivity.
Defined.

Lemma X11_global_round_robin_witness :
  let models := [JNull; JStr "Qwen/Qwen2.5-7B-Instruct"; JStr "mistral-7b"; JInt 7;
                 JStr ""; JArr []; JStr "Qwen/Qwen2.5-7B-Instruct"; JNull; JNull] in
  answers_where uses_global models
    (fst (get_next_endpoint_calls Sample.selector models))
  = rotation Sample.six 0 (count_where uses_global models)
  ∧ Forall (fun a => is_ok a = true)
      (rotation Sample.six 0 (count_where uses_global models)).
Proof.
  cbv zeta. apply (X11_global_round_robin Sample.six Sample.selector). reflexivity.
Defined.

(** Seven calls served by the global iterator over six backends: the
    seventh wraps round to the first backend. *)
Example global_rotation_wraps :
  fst (get_next_endpoint_calls Sample.selector
         [JNull; JStr "mistral-7b"; JInt 7; JStr ""; JArr []; JNull; JNull])
  = [Ok "http://vllm-0:8000"; Ok "http://vllm-1:8000"; Ok "http://vllm-2:8000";
     Ok "http://vllm-3:8000"; Ok "http://vllm-4:8000"; Ok "http://vllm-5:8000";
     Ok "http://vllm-0:8000"].
Proof. vm_compute. reflexivity. Qed.

End StartedExamples.

(** ** The request proxy: what reaches the backend and what comes back *)

Section ProxyPaths.
Import Notions Http.


(** X5: a request whose [model] field is a non-empty list or object is
    answered 500 with the hashing error by both balancers, without any
    request to a backend and without moving a cursor. *)
Theorem X5_unhashable_model_is_500 (l : list string) (c : gmap string SmartLB.Metrics)
    (selector : SimpleLB.RoundRobinSelector) (backends : Backends) (request : Request)
    (body model : json) (msg : string) :
  req_json request = Ok body → body_get body "model" JNull = Ok model →
  truthy model = true → unhashable model = Some msg →
  (6 ≤ length l)%nat →
  SmartLB.proxy_request l c backends request = ([], HTTPException 500 msg)
  ∧ SimpleLB.proxy_request selector backends request
    = ([], HTTPException 500 msg, selector).
Proof.
  intros Hb Hm Ht Hu H6. destruct (model_endpoints_six l H6) as [d Hd]. split.
  - unfold SmartLB.proxy_request, SmartLB.attempt, SmartLB.route.
    rewrite Hb. simpl. rewrite Hm. simpl.
    unfold SmartLB.get_best_endpoint, SmartLB.candidates_of.
    rewrite Ht, Hd. simpl. unfold dict_get, dict_find. rewrite Hu. reflexivity.
  - unfold SimpleLB.proxy_request, SimpleLB.attempt, SimpleLB.route.
    rewrite Hb. simpl. rewrite Hm. simpl.
    unfold SimpleLB.get_next_endpoint, SimpleLB.model_iterator.
    rewrite Ht. unfold dict_find. rewrite Hu. reflexivity.
Qed.


(** X16: in the round-robin balancer, a request that names a registered
    model is sent to the replica its cursor stands on, and the cursor has
    moved on when the call ends, whether the backend answered or not. *)
Theorem X16_post_follows_rotation (selector : SimpleLB.RoundRobinSelector)
    (backends : Backends) (request : Request) (body : json)
    (name : string) (rs : list string) (t : nat) :
  req_json request = Ok body → body_get body "model" JNull = Ok (JStr name) →
  name ≠ "" → rs ≠ [] →
  SimpleLB.model_iterators selector !! name
  = Some (SimpleLB.mk_cycle rs (t mod length rs)%nat) →
  ∃ r,
    index rs (t mod length rs)%nat = Ok r
    ∧ fst (fst (SimpleLB.proxy_request selector backends request))
      = [outbound request body r]
    ∧ SimpleLB.model_iterators (snd (SimpleLB.proxy_request selector backends request))
      !! name
      = Some (SimpleLB.mk_cycle rs (S t mod length rs)%nat).
Proof.
  intros Hb Hm Hname Hrs Hit.
  destruct (call_named selector name rs t Hname Hrs Hit) as (r & self' & Hr & Hcall & Hit').
  exists r. split; [exact Hr|].
  unfold SimpleLB.proxy_request, SimpleLB.attempt, SimpleLB.route.
  rewrite Hb. simpl. rewrite Hm. simpl. rewrite Hcall. simpl.
  split; [reflexivity | exact Hit'].
Qed.

(** X15: both balancers build the same registry, and the models listing
    agrees with it: the listed ids are exactly its keys and each listed
    replica count is the number of backends registered for the model. *)
Theorem X15_listing_matches_registry (l : list string)
    (c : gmap string SmartLB.Metrics) d (selector : SimpleLB.RoundRobinSelector) :
  SmartLB.model_endpoints l = Ok d → SimpleLB.init l = Ok selector →
  SimpleLB.model_endpoints selector = d
  ∧ (∀ name, is_Some (d !! name)
             ↔ name ∈ id <$> data (SmartLB.list_models l c))
  ∧ Forall (fun m => ∃ rs, d !! id m = Some rs ∧ Z.of_nat (length rs) = replicas m)
      (data (SmartLB.list_models l c))
  ∧ SimpleLB.list_models l selector = SmartLB.list_models l c.
Proof.
  intros Hd Hi.
  apply model_endpoints_Ok in Hd as (e0&e1&e2&e3&e4&e5&rest&->&->).
  apply init_Ok in Hi as (e0'&e1'&e2'&e3'&e4'&e5'&rest'&d'&[= <- <- <- <- <- <- <-]&->&->).
  split; [reflexivity|]. split; [|split; [|reflexivity]].
  - intros name. simpl. unfold is_Some. split.
    + intros [rs Hrs]. rewrite !lookup_insert_Some, lookup_empty in Hrs.
      apply list_elem_of_In. simpl. unfold SmartLB.LLAMA_8B, SmartLB.QWEN_7B,
        SmartLB.LLAMA_70B in Hrs.
      destruct Hrs as [[<- _]|[_ [[<- _]|[_ [[<- _]|[_ ?]]]]]]; try discriminate; tauto.
    + intros Hin. apply list_elem_of_In in Hin. simpl in Hin.
      destruct Hin as [<-|[<-|[<-|[]]]]; eexists.
      * apply lookup_insert_eq.
      * rewrite lookup_insert_ne by discriminate. apply lookup_insert_eq.
      * rewrite !(lookup_insert_ne _ _ "meta-llama/Llama-3.3-70B-Instruct")
          by discriminate.
        apply lookup_insert_eq.
  - apply Forall_forall. intros m Hm. apply list_elem_of_In in Hm. simpl in Hm.
    destruct Hm as [<-|[<-|[<-|[]]]]; eexists; simpl.
    + split; [apply lookup_insert_eq | reflexivity].
    + split; [rewrite lookup_insert_ne by discriminate; apply lookup_insert_eq
             | reflexivity].
    + split; [rewrite !(lookup_insert_ne _ _ "meta-llama/Llama-3.3-70B-Instruct")
                by discriminate; apply lookup_insert_eq
             | reflexivity].
Qed.

End ProxyPaths.

Section ProxyPathsExamples.
Import Notions Http.

Lemma X5_unhashable_model_is_500_witness :
  let request := mk_request (Ok (JObj [("model", JArr [JStr "Qwen/Qwen2.5-7B-Instruct"])]))
                            "/v1/completions" [] in
  let backends : Backends := fun _ => Raise (mk_exn OtherException "unused") in
  SmartLB.proxy_request Sample.six ∅ backends request
  = ([], HTTPException 500 "unhashable type: 'list'")
  ∧ SimpleLB.proxy_request Sample.selector backends request
    = ([], HTTPException 500 "unhashable type: 'list'", Sample.selector).
Proof.
  cbv zeta.
  apply (X5_unhashable_model_is_500 Sample.six ∅ Sample.selector _ _
           (JObj [("model", JArr [JStr "Qwen/Qwen2.5-7B-Instruct"])])
           (JArr [JStr "Qwen/Qwen2.5-7B-Instruct"])).
  - reflexivity.
  - reflexivity.
  - reflexivity.
  - reflexivity.
  - simpl. lia.
Defined.


Lemma X16_post_follows_rotation_witness :
  let body := JObj [("model", JStr "Qwen/Qwen2.5-7B-Instruct")] in
  let request := mk_request (Ok body) "/v1/completions" [] in
  let backends : Backends := fun _ => Raise (mk_exn OtherException "timed out") in
  let rs := ["http://vllm-2:8000"; "http://vllm-3:8000"] in
  ∃ r,
    index rs (0 mod length rs)%nat = Ok r
    ∧ fst (fst (SimpleLB.proxy_request Sample.selector backends request))
      = [outbound request body r]
    ∧ SimpleLB.model_iterators
        (snd (SimpleLB.proxy_request Sample.selector backends request))
      !! "Qwen/Qwen2.5-7B-Instruct"
      = Some (SimpleLB.mk_cycle rs (1 mod length rs)%nat).
Proof.
  cbv zeta.
  apply (X16_post_follows_rotation Sample.selector
           (fun _ => Raise (mk_exn OtherException "timed out"))
           (mk_request (Ok (JObj [("model", JStr "Qwen/Qwen2.5-7B-Instruct")]))
                       "/v1/completions" [])
           (JObj [("model", JStr "Qwen/Qwen2.5-7B-Instruct")])
           "Qwen/Qwen2.5-7B-Instruct"
           ["http://vllm-2:8000"; "http://vllm-3:8000"] 0).
  - reflexivity.
  - reflexivity.
  - discriminate.
  - discriminate.
  - vm_compute. reflexivity.
Defined.

Lemma X15_listing_matches_registry_witness :
  match SmartLB.model_endpoints Sample.six with
  | Ok d =>
      SimpleLB.model_endpoints Sample.selector = d
      ∧ (∀ name, is_Some (d !! name)
                 ↔ name ∈ id <$> data (SmartLB.list_models Sample.six ∅))
      ∧ Forall (fun m => ∃ rs, d !! id m = Some rs ∧ Z.of_nat (length rs) = replicas m)
          (data (SmartLB.list_models Sample.six ∅))
      ∧ SimpleLB.list_models Sample.six Sample.selector
        = SmartLB.list_models Sample.six ∅
  | Raise _ => False
  end.
Proof.
  apply (X15_listing_matches_registry Sample.six ∅ _ Sample.selector); reflexivity.
Defined.

End ProxyPathsExamples.

(** ** The selector reads the candidates only *)

Section SelectorFrame.
Import SmartLB.

Lemma scan_ext (c c' : gmap string Metrics) (cs : list string) (st : spec_float * string) :
  (∀ e, e ∈ cs → depth_of c e = depth_of c' e) →
  fold_left (scan_step c) cs st = fold_left (scan_step c') cs st.
Proof.
  revert st. induction cs as [|x cs IH]; intros st Hag; [reflexivity|].
  simpl. unfold scan_step at 2 4. rewrite (Hag x) by constructor.
  apply IH. intros e He. apply Hag. now constructor.
Qed.

(** X17: the choice depends on the cache only through the queue depths of
    the candidates of the call: two caches that give every candidate the
    same depth (an absent entry counting as [+inf]) give the same answer,
    whatever they hold for other backends and in the other fields. *)
Theorem X17_choice_reads_candidates_only (endpoints : list string)
    (c c' : gmap string Metrics) (model : json) (cs : list string) :
  candidates_of endpoints model = Ok cs →
  Forall (fun e => depth_of c e = depth_of c' e) cs →
  get_best_endpoint endpoints c model = get_best_endpoint endpoints c' model.
Proof.
  intros Hcs Hag. unfold get_best_endpoint. rewrite Hcs. simpl.
  unfold least_busy. destruct (index cs 0) as [c0|x]; simpl; [|reflexivity].
  rewrite Forall_forall in Hag. now rewrite (scan_ext c c' cs _ Hag).
Qed.

(** X18: for every call, with or without model, the candidate that is not
    above any other candidate and is strictly below every earlier one is
    the one returned. *)
Theorem X18_first_minimum_of_any_call (endpoints : list string)
    (c : gmap string Metrics) (model : json) (cs : list string) (k : nat) (r : string) :
  candidates_of endpoints model = Ok cs →
  cs !! k = Some r →
  Forall (fun e => fle (depth_of c r) (depth_of c e) = true) cs →
  Forall (fun e => flt (depth_of c r) (depth_of c e) = true) (take k cs) →
  get_best_endpoint endpoints c model = Ok r.
Proof.
  intros Hcs Hk Hle Hlt. unfold get_best_endpoint. rewrite Hcs. simpl.
  rewrite Forall_forall in Hle. rewrite Forall_forall in Hlt.
  apply (least_busy_first_min c cs k r Hk).
  - intros j r' Hj. apply Hle, list_elem_of_lookup. eauto.
  - intros j r' Hj Hjk. apply Hlt, list_elem_of_lookup. exists j.
    now rewrite lookup_take_lt.
Qed.

End SelectorFrame.

Section SelectorFrameExamples.
Import SmartLB.

Lemma X17_choice_reads_candidates_only_witness :
  get_best_endpoint Sample.six
    {[ "http://vllm-1:8000" := Sample.sample "http://vllm-1:8000" Sample.two ]}
    (JStr LLAMA_8B)
  = get_best_endpoint Sample.six
      (<[ "http://vllm-1:8000" := mk_metrics "http://vllm-1:8000" Sample.two Sample.five false ]>
         {[ "http://vllm-4:8000" := Sample.sample "http://vllm-4:8000" zero ]})
      (JStr LLAMA_8B).
Proof.
  apply (X17_choice_reads_candidates_only Sample.six _ _ (JStr LLAMA_8B)
           ["http://vllm-0:8000"; "http://vllm-1:8000"]).
  - vm_compute. reflexivity.
  - repeat constructor.
Defined.

Lemma X18_first_minimum_of_any_call_witness :
  get_best_endpoint Sample.six
    (<[ "http://vllm-2:8000" := Sample.sample "http://vllm-2:8000" Sample.two ]>
       {[ "http://vllm-4:8000" := Sample.sample "http://vllm-4:8000" Sample.two ]})
    JNull
  = Ok "http://vllm-2:8000".
Proof.
  apply (X18_first_minimum_of_any_call Sample.six _ JNull Sample.six 2).
  - reflexivity.
  - reflexivity.
  - repeat constructor.
  - repeat constructor.
Defined.

End SelectorFrameExamples.

(** ** The selector avoids backends without a known queue *)

Section SelectorAvoids.
Import SmartLB.

Variable endpoint_metrics : gmap string Metrics.

(** The minimum of the scanning loop stays where it is or goes down. *)
Lemma scan_decreases (cs : list string) (st : spec_float * string) :
  fst (fold_left (scan_step endpoint_metrics) cs st) = fst st
  ∨ flt (fst (fold_left (scan_step endpoint_metrics) cs st)) (fst st) = true.
Proof.
  revert st. induction cs as [|c cs IH]; intros st; [now left|].
  simpl.
  assert (Hstep : fst (scan_step endpoint_metrics st c) = fst st
                  ∨ flt (fst (scan_step endpoint_metrics st c)) (fst st) = true).
  { unfold scan_step.
    destruct (flt (depth_of endpoint_metrics c) (fst st)) eqn:E; [now right | now left]. }
  destruct (IH (scan_step endpoint_metrics st c)) as [Heq|Hlt].
  - now rewrite Heq.
  - right. destruct Hstep as [Hsame|Hdown].
    + now rewrite <- Hsame.
    + now apply (flt_trans _ _ _ Hlt Hdown).
Qed.

(** X19: while some candidate of the call has a queue depth below [+inf],
    the backend returned has one too: a backend whose last scrape failed,
    or that was never scraped, is not chosen over a backend with a known
    queue. *)
Theorem X19_known_queue_is_preferred (endpoints : list string) (model : json)
    (cs : list string) (r : string) :
  candidates_of endpoints model = Ok cs →
  get_best_endpoint endpoints endpoint_metrics model = Ok r →
  Exists (fun e => flt (depth_of endpoint_metrics e) inf = true) cs →
  flt (depth_of endpoint_metrics r) inf = true
  ∧ is_Some (endpoint_metrics !! r).
Proof.
  unfold get_best_endpoint. intros -> Hr Hex. simpl in Hr.
  apply Exists_exists in Hex as (e & He & Hlt).
  assert (Hdepth : flt (depth_of endpoint_metrics r) inf = true).
  { unfold least_busy, index in Hr.
    destruct (cs !! 0%nat) as [c0|]; [|discriminate]. simpl in Hr.
    injection Hr as <-.
    destruct (scan_minimum endpoint_metrics cs (inf, c0)) as (Hall & _ & Hst).
    destruct (scan_decreases cs (inf, c0)) as [Heq|Hdown]; simpl in *.
    - specialize (Hall e He). rewrite Heq in Hall. congruence.
    - destruct Hst as [Hsame|Hmin].
      + rewrite Hsame in Hdown. simpl in Hdown. now rewrite flt_inf_r in Hdown.
      + now rewrite <- Hmin. }
  split; [exact Hdepth|].
  unfold depth_of in Hdepth. destruct (endpoint_metrics !! r); [eauto|].
  now rewrite flt_inf_r in Hdepth.
Qed.

End SelectorAvoids.

Section SelectorAvoidsExamples.
Import SmartLB.

Lemma X19_known_queue_is_preferred_witness :
  let c : gmap string Metrics :=
    <[ "http://vllm-0:8000" := unreachable "http://vllm-0:8000" zero ]>
      {[ "http://vllm-1:8000" := Sample.sample "http://vllm-1:8000" Sample.five ]} in
  flt (depth_of c "http://vllm-1:8000") inf = true
  ∧ is_Some (c !! "http://vllm-1:8000").
Proof.
  cbv zeta.
  apply (X19_known_queue_is_preferred _ Sample.six (JStr LLAMA_8B)
           ["http://vllm-0:8000"; "http://vllm-1:8000"]).
  - vm_compute. reflexivity.
  - vm_compute. reflexivity.
  - apply Exists_cons_tl, Exists_cons_hd. vm_compute. reflexivity.
Defined.

End SelectorAvoidsExamples.
